(** * The paginated content view-model, the factory registry and the
      scroll handler of the generic list component

    A shallow embedding of [FileSystemLogic.ts] (the abstract class
    [FileSystemLogic] and the component [JenericComponent]), of
    [Factory.tsx] (the class [CompoFactory]) and of the handlers of the
    dashboard field card ([FieldItem]).

    JavaScript numbers that hold identifiers, counters and pixel offsets are
    integers of [Z]; [undefined] and [null] are [None]; a thrown value is an
    element of the abstract type [Err].  The abstract request methods belong
    to the environment: a call is recorded and its promise settles as an
    oracle says, without touching the fields of the class.  Writes to the
    logger are left out.  A JavaScript string is carried by a [string]; the two
    built-ins that read its characters, [toLowerCase] and the comparison of
    two strings, are the methods of the class [JsString]. *)

From Stdlib Require Import ZArith List Bool String Ascii Lia.
From stdpp Require Import base option gmap strings list fin_maps.
Import ListNotations.

Set Implicit Arguments.
Local Open Scope Z_scope.

(** ** The view-model: [abstract class FileSystemLogic] *)

Module FileSystemLogic.

(** The built-ins of JavaScript strings that [sortContent] calls:
    [String.prototype.toLowerCase], which follows the Unicode case mapping,
    and [a < b] on two strings, which compares their UTF-16 code units. *)
Class JsString := {
  toLowerCase : string -> string;
  string_lt : string -> string -> bool
}.

(** The two built-ins on strings of ASCII characters, where lowering changes
    the letters A to Z only and code units are bytes; the examples run on
    them. *)
Definition lower_ascii (c : ascii) : ascii :=
  let n := nat_of_ascii c in
  if ((65 <=? n) && (n <=? 90))%nat then ascii_of_nat (n + 32) else c.

Fixpoint toLowerCase_ascii (x : string) : string :=
  match x with
  | EmptyString => EmptyString
  | String c x' => String (lower_ascii c) (toLowerCase_ascii x')
  end.

Definition ascii_strings : JsString :=
  {| toLowerCase := toLowerCase_ascii; string_lt := String.ltb |}.

Section ViewModel.

(** The type of thrown values ([catch (e)]). *)
Variable Err : Type.

(** The string built-ins of the engine. *)
Context {strings : JsString}.

(** [type SelectMode = 'search' | 'id'] *)
Inductive SelectMode := search | by_id.

(** [interface ContentStructure { id: number, name: string }] *)
Record ContentStructure := { cs_id : Z; cs_name : string }.

(** [interface ContentSelectStructure extends ContentStructure { selected: boolean }] *)
Record Content := { id : Z; name : string; selected : bool }.

(** [LoadingState] is imported from [../types]; the class builds it as
    [{ loading: false, error: null }]. *)
Record LoadingState := { loading : bool; error : option Err }.

(** [Partial<LoadingState>]: each key is present or absent. *)
Record PartialLoadingState :=
  { has_loading : option bool; has_error : option (option Err) }.

(** [Sort] is imported from [../types]; the class builds it as [{ name: -1 }],
    tests ['name' in this.sort] and reads [this.sort[sorting] === 1]. *)
Abbreviation Sort := (gmap string Z).

(** The response of [requestContentData]:
    [{ data: ContentStructure[], next_id: number, total_count: number }];
    the code tests [if (response.data)], so [data] may be missing at run time. *)
Record Request :=
  { data : option (list ContentStructure); next_id : Z; total_count : Z }.

(** The fields of the class that its methods read and write ([props], the
    data passed from outside, is only stored). *)
Record State := {
  content : list Content;
  totalCount : Z;
  nextId : Z;
  sort : Sort;
  state : LoadingState;
  paginationState : LoadingState;
  actionState : LoadingState;
  selectedAll : bool;
  removedElements : option (list Content)
}.

(** *** Promises, abstract requests and suspended async methods *)

(** The four abstract methods a subclass supplies, with their arguments. *)
Inductive Call :=
| requestContentData
| requestContentMove (ids : list Z) (mode : SelectMode) (toDir : Z)
| requestContentRemove (ids : list Z) (mode : SelectMode)
| requestContentRename (i : Z) (n : string).

(** What the promise of a call resolves to. *)
Definition answer (c : Call) : Type :=
  match c with
  | requestContentData => Request
  | _ => unit
  end.

(** A settled promise: resolved with a value, or rejected (the call threw). *)
Inductive Settled (A : Type) :=
| Resolved (a : A)
| Rejected (e : Err).
Arguments Rejected {A} e.

(** An async method is a thread on the shared store: it has finished, or it is
    parked at an [await] of an abstract request.  When the promise settles the
    continuation runs on the store as it is then, up to the next [await]; it
    yields the rest of the thread, the new store, and the threads of the async
    methods it called without awaiting them. *)
Local Unset Elimination Schemes.
Inductive Thread :=
| Done
| Await (c : Call) (k : Settled (answer c) -> State -> Thread * State * list Thread).

Local Set Elimination Schemes.

(** One synchronous run of an async method. *)
Record Run := { self : Thread; now : State; forked : list Thread }.

Definition finished (s : State) : Run :=
  {| self := Done; now := s; forked := [] |}.

Definition of_triple (r : Thread * State * list Thread) : Run :=
  {| self := fst (fst r); now := snd (fst r); forked := snd r |}.

(** The request a thread is parked at. *)
Definition awaiting (t : Thread) : option Call :=
  match t with
  | Done => None
  | Await c _ => Some c
  end.

(** The abstract request methods invoked during a synchronous run, in order:
    the ones its parked threads wait for. *)
Definition issued (r : Run) : list Call :=
  omap awaiting (forked r) ++ option_list (awaiting (self r)).

(** How the environment settles the promise of each call. *)
Definition Oracle := forall c : Call, Settled (answer c).

(** The continuation of a parked thread on store [s], once its promise has
    settled as the oracle says. *)
Definition resume (t : Thread) (o : Oracle) (s : State) : Run :=
  match t with
  | Done => finished s
  | Await c k => of_triple (k (o c) s)
  end.

(** The whole run of an async method when nothing else touches the store
    while it awaits. *)
Definition settle (o : Oracle) (r : Run) : Run :=
  let fin := resume (self r) o (now r) in
  {| self := self fin; now := now fin; forked := forked r ++ forked fin |}.

Definition is_resolved {A : Type} (r : Settled A) : bool :=
  match r with
  | Resolved _ => true
  | Rejected _ => false
  end.

(** An async method called without [await]: its synchronous part runs now, and
    what remains of it is left to the event loop. *)
Definition detach (r : Run) : State * list Thread :=
  (now r,
   forked r ++ match self r with Done => [] | t => [t] end).

(** *** Getters *)

(** [content.filter((item) => item.selected).map((item) => item.id)] *)
Definition getAllSelectedIds (s : State) : list Z :=
  map id (List.filter (fun item => selected item) (content s)).

(** [content.filter((item) => !item.selected).map((item) => item.id)] *)
Definition getAllUnselectedIds (s : State) : list Z :=
  map id (List.filter (fun item => negb (selected item)) (content s)).

Definition getSelectedIds (s : State) : list Z :=
  if selectedAll s then getAllUnselectedIds s else getAllSelectedIds s.

Definition isSelectAll (s : State) : bool :=
  let isAllSelected :=
    (0 <? length (content s))%nat && forallb (fun item => selected item) (content s) in
  (selectedAll s && isAllSelected)
  || ((totalCount s <=? Z.of_nat (length (content s))) && isAllSelected).

Definition selectedCount (s : State) : Z :=
  if selectedAll s then
    totalCount s
    - Z.of_nat (length (List.filter (fun item => negb (selected item)) (content s)))
  else if (0 <? length (content s))%nat then
    Z.of_nat (length (List.filter (fun item => selected item) (content s)))
  else 0.

Definition getSelected (i : option Z) (s : State) : list Z :=
  match i with
  | Some i => [i]
  | None => getSelectedIds s
  end.

(** *** Setters ([@action] methods that assign one field) *)

Definition setContent (c : list Content) (s : State) : State :=
  {| content := c; totalCount := totalCount s; nextId := nextId s; sort := sort s;
     state := state s; paginationState := paginationState s;
     actionState := actionState s; selectedAll := selectedAll s;
     removedElements := removedElements s |}.

Definition updateContent (c : list Content) (s : State) : State :=
  setContent (content s ++ c) s.

Definition setTotalCount (n : Z) (s : State) : State :=
  {| content := content s; totalCount := n; nextId := nextId s; sort := sort s;
     state := state s; paginationState := paginationState s;
     actionState := actionState s; selectedAll := selectedAll s;
     removedElements := removedElements s |}.

Definition setNextId (n : Z) (s : State) : State :=
  {| content := content s; totalCount := totalCount s; nextId := n; sort := sort s;
     state := state s; paginationState := paginationState s;
     actionState := actionState s; selectedAll := selectedAll s;
     removedElements := removedElements s |}.

Definition setSort (o : Sort) (s : State) : State :=
  {| content := content s; totalCount := totalCount s; nextId := nextId s; sort := o;
     state := state s; paginationState := paginationState s;
     actionState := actionState s; selectedAll := selectedAll s;
     removedElements := removedElements s |}.

Definition setSelectedAll (b : bool) (s : State) : State :=
  {| content := content s; totalCount := totalCount s; nextId := nextId s; sort := sort s;
     state := state s; paginationState := paginationState s;
     actionState := actionState s; selectedAll := b;
     removedElements := removedElements s |}.

Definition setRemovedElement (e : option (list Content)) (s : State) : State :=
  {| content := content s; totalCount := totalCount s; nextId := nextId s; sort := sort s;
     state := state s; paginationState := paginationState s;
     actionState := actionState s; selectedAll := selectedAll s;
     removedElements := e |}.

(** [{ ...st, ...p }] *)
Definition spread (st : LoadingState) (p : PartialLoadingState) : LoadingState :=
  {| loading := default (loading st) (has_loading p);
     error := default (error st) (has_error p) |}.

Definition changeState (p : PartialLoadingState) (s : State) : State :=
  {| content := content s; totalCount := totalCount s; nextId := nextId s; sort := sort s;
     state := spread (state s) p; paginationState := paginationState s;
     actionState := actionState s; selectedAll := selectedAll s;
     removedElements := removedElements s |}.

Definition changePaginationState (p : PartialLoadingState) (s : State) : State :=
  {| content := content s; totalCount := totalCount s; nextId := nextId s; sort := sort s;
     state := state s; paginationState := spread (paginationState s) p;
     actionState := actionState s; selectedAll := selectedAll s;
     removedElements := removedElements s |}.

Definition changeActionState (p : PartialLoadingState) (s : State) : State :=
  {| content := content s; totalCount := totalCount s; nextId := nextId s; sort := sort s;
     state := state s; paginationState := paginationState s;
     actionState := spread (actionState s) p; selectedAll := selectedAll s;
     removedElements := removedElements s |}.

(** The three object literals the class passes to the [change...State] methods. *)
Definition in_flight : PartialLoadingState :=
  {| has_loading := Some true; has_error := None |}.
Definition settled_ok : PartialLoadingState :=
  {| has_loading := Some false; has_error := Some None |}.
Definition settled_error (e : Err) : PartialLoadingState :=
  {| has_loading := Some false; has_error := Some (Some e) |}.

Definition resetActionState (s : State) : State :=
  changeActionState settled_ok s.

(** *** Selection *)

(** [Array.prototype.findIndex], with [None] for [-1]. *)
Fixpoint findIndex {A : Type} (p : A -> bool) (l : list A) : option nat :=
  match l with
  | [] => None
  | x :: l' => if p x then Some O else S <$> findIndex p l'
  end.

Definition with_selected (b : bool) (item : Content) : Content :=
  {| id := id item; name := name item; selected := b |}.

Definition with_name (n : string) (item : Content) : Content :=
  {| id := id item; name := n; selected := selected item |}.

Definition onToggleSelected (i : Z) (b : bool) (s : State) : State :=
  match findIndex (fun item => id item =? i) (content s) with
  | Some index => setContent (alter (with_selected b) index (content s)) s
  | None => s
  end.

Definition toggleSelectAll (b : bool) (s : State) : State :=
  setContent (map (with_selected b) (content s)) s.

Definition toggleSelectedAll (select : bool) (s : State) : State :=
  toggleSelectAll select (setSelectedAll select s).

(** [content.map((item) => ({ ...item, selected: this.selectedAll }))] *)
Definition convert (s : State) (c : list ContentStructure) : list Content :=
  map (fun item => {| id := cs_id item; name := cs_name item; selected := selectedAll s |}) c.

(** *** Sorting *)

(** The keys of [Content] and the values found under them. *)
Inductive Field := f_id | f_name | f_selected.

Inductive PropValue :=
| PNum (n : Z)
| PStr (x : string)
| PBool (b : bool).

(** [a[field]] *)
Definition get (item : Content) (field : Field) : PropValue :=
  match field with
  | f_id => PNum (id item)
  | f_name => PStr (name item)
  | f_selected => PBool (selected item)
  end.

(** [typeof prop === 'string' ? prop.toLowerCase() : prop] *)
Definition checkProp (p : PropValue) : PropValue :=
  match p with
  | PStr x => PStr (toLowerCase x)
  | _ => p
  end.

(** [a < b] on two values of one type: numbers by value, strings by code
    units, booleans as 0 and 1. *)
Definition lt_prop (a b : PropValue) : bool :=
  match a, b with
  | PNum m, PNum n => m <? n
  | PStr x, PStr y => string_lt x y
  | PBool x, PBool y => negb x && y
  | _, _ => false
  end.

Definition asc (field : Field) (a b : Content) : Z :=
  if lt_prop (checkProp (get b field)) (checkProp (get a field)) then 1
  else if lt_prop (checkProp (get a field)) (checkProp (get b field)) then -1
  else 0.

Definition desc (field : Field) (a b : Content) : Z :=
  if lt_prop (checkProp (get a field)) (checkProp (get b field)) then 1
  else if lt_prop (checkProp (get b field)) (checkProp (get a field)) then -1
  else 0.

(** [Array.prototype.sort] is stable: an element goes in front of the first
    one that the comparator does not put before it. *)
Fixpoint sort_insert {A : Type} (cmp : A -> A -> Z) (x : A) (l : list A) : list A :=
  match l with
  | [] => [x]
  | y :: l' => if cmp x y <=? 0 then x :: l else y :: sort_insert cmp x l'
  end.

Definition array_sort {A : Type} (cmp : A -> A -> Z) (l : list A) : list A :=
  fold_right (sort_insert cmp) [] l.

Definition sortContent (s : State) (c : list Content) (field : Field) (sorting : string)
  : list Content :=
  array_sort (if bool_decide (sort s !! sorting = Some 1) then asc field else desc field) c.

(** *** Rename *)

Definition renameContent (i : Z) (n : string) (s : State) : State :=
  match findIndex (fun item => id item =? i) (content s) with
  | Some index => setContent (alter (with_name n) index (content s)) s
  | None => s
  end.

(** [l.slice(-1)] *)
Definition slice_last {A : Type} (l : list A) : list A :=
  option_list (last l).

(** The part of [rename] between the resolved request and the final
    [changeActionState]. *)
Definition rename_sorted (i : Z) (s : State) : State :=
  if bool_decide (is_Some (sort s !! "name"%string)) then
    let newContent := sortContent s (content s) f_name "name" in
    let lastElement := slice_last newContent in
    if (1 <? length newContent)%nat
       && match lastElement with x :: _ => id x =? i | [] => false end
       && (nextId s <? totalCount s)
    then
      let s := setContent (removelast newContent) s in
      let s := setRemovedElement (Some lastElement) s in
      setNextId (nextId s - 1) s
    else s
  else s.

Definition rename (i : Z) (n : string) (s : State) : Run :=
  let s := changeActionState in_flight s in
  {| self := Await (requestContentRename i n) (fun r s =>
       match r with
       | Resolved _ =>
           let s := renameContent i n s in
           let s := rename_sorted i s in
           (Done, changeActionState settled_ok s, [])
       | Rejected e => (Done, changeActionState (settled_error e) s, [])
       end);
     now := s;
     forked := [] |}.

(** *** Requests for content *)

Definition paginationRequest (s : State) : Run :=
  let s := changePaginationState in_flight s in
  {| self := Await requestContentData (fun r s =>
       match r with
       | Resolved response =>
           let s :=
             match data response with
             | Some d =>
                 let s := setNextId (next_id response) s in
                 updateContent (convert s d) s
             | None => s
             end in
           (Done, changePaginationState settled_ok s, [])
       | Rejected e => (Done, changePaginationState (settled_error e) s, [])
       end);
     now := s;
     forked := [] |}.

Definition contentRequest (s : State) : Run :=
  let s := changeState in_flight s in
  {| self := Await requestContentData (fun r s =>
       match r with
       | Resolved response =>
           let s :=
             match data response with
             | Some d =>
                 let s := setTotalCount (total_count response) s in
                 let s := setNextId (next_id response) s in
                 setContent (convert s d) s
             | None => s
             end in
           (Done, changeState settled_ok s, [])
       | Rejected e => (Done, changeState (settled_error e) s, [])
       end);
     now := s;
     forked := [] |}.

Definition init (s : State) : Run := contentRequest s.

Definition pagination (s : State) : Run :=
  if (0 <? nextId s) && (nextId s <? totalCount s) then paginationRequest s
  else finished s.

Definition onChangeSort (o : Sort) (s : State) : Run :=
  let s := setSort o s in
  let s := setNextId 0 s in
  contentRequest s.

(** *** Remove and move *)

(** [ids.includes(x)] *)
Definition includes (ids : list Z) (x : Z) : bool :=
  existsb (fun y => y =? x) ids.

Definition removeContent (i : option Z) (s : State) : State * list Thread :=
  let '(result, s, spawned) :=
    if bool_decide (is_Some i) || negb (selectedAll s) then
      let ids :=
        match i with
        | Some j => if j =? 0 then getAllSelectedIds s else [j]
        | None => getAllSelectedIds s
        end in
      let removed := List.filter (fun entity => includes ids (id entity)) (content s) in
      let result := List.filter (fun entity => negb (includes ids (id entity))) (content s) in
      let s := setTotalCount (totalCount s - Z.of_nat (length ids)) s in
      let s := if (0 <? length removed)%nat then setRemovedElement (Some removed) s else s in
      let '(s, spawned) := detach (pagination s) in
      (result, s, spawned)
    else
      let result :=
        List.filter (fun item => includes (getAllUnselectedIds s) (id item)) (content s) in
      let s := setTotalCount (Z.of_nat (length result)) s in
      (result, s, [])
  in
  let s := setContent result s in
  let s := setSelectedAll false s in
  let s := toggleSelectAll false s in
  (s, spawned).

Definition remove (i : option Z) (s : State) : Run :=
  let ids := getSelected i s in
  if selectedAll s || (0 <? length ids)%nat then
    let s := changeActionState in_flight s in
    {| self := Await (requestContentRemove ids (if selectedAll s then search else by_id))
         (fun r s =>
            match r with
            | Resolved _ =>
                let '(s, spawned) := removeContent i s in
                (Done, changeActionState settled_ok s, spawned)
            | Rejected e => (Done, changeActionState (settled_error e) s, [])
            end);
       now := s;
       forked := [] |}
  else finished s.

Definition move (toDir : Z) (i : option Z) (s : State) : Run :=
  let ids := getSelected i s in
  if selectedAll s || (0 <? length ids)%nat then
    let s := changeActionState in_flight s in
    {| self := Await (requestContentMove ids (if selectedAll s then search else by_id) toDir)
         (fun r s =>
            match r with
            | Resolved _ =>
                let '(s, spawned) := removeContent i s in
                (Done, changeActionState settled_ok s, spawned)
            | Rejected e => (Done, changeActionState (settled_error e) s, [])
            end);
       now := s;
       forked := [] |}
  else finished s.

(** *** The constructor *)

Definition blank (o : Sort) : State :=
  {| content := []; totalCount := 0; nextId := 0; sort := o;
     state := {| loading := false; error := None |};
     paginationState := {| loading := false; error := None |};
     actionState := {| loading := false; error := None |};
     selectedAll := false;
     removedElements := None |}.

(** [sort || { name: -1 }], then [this.init()] without [await]. *)
Definition constructor (o : option Sort) : State * list Thread :=
  detach (init (blank (default {[ "name"%string := -1 ]} o))).

(** *** Lookups by id *)

(** [this.content.find((item) => item.id === id)] *)
Definition getAlone (i : Z) (s : State) : option Content :=
  List.find (fun item => id item =? i) (content s).

(** [this.removedElements?.find((item) => item.id === id)] *)
Definition getRemoveElement (i : Z) (s : State) : option Content :=
  match removedElements s with
  | Some l => List.find (fun item => id item =? i) l
  | None => None
  end.

Definition getContentLength (s : State) : nat := length (content s).

End ViewModel.

Arguments Done {Err}.
Arguments Resolved {Err A} a.
Arguments Rejected {Err A} e.
Arguments in_flight {Err}.
Arguments settled_ok {Err}.
Arguments state {Err} s.
Arguments paginationState {Err} s.
Arguments actionState {Err} s.
Arguments awaiting {Err} t.
Arguments rename {Err strings} i n s.
Arguments remove {Err} i s.
Arguments move {Err} toDir i s.
Arguments pagination {Err} s.
Arguments paginationRequest {Err} s.
Arguments contentRequest {Err} s.
Arguments onChangeSort {Err} o s.

End FileSystemLogic.

(** ** The factory registry: [class CompoFactory] *)

Module CompoFactory.

Section Registry.

(** [ParamsType], the type of the field-type tags, is imported from
    [../types]; tags are used as keys of the object [factories]. *)
Context {ParamsType : Type} `{Countable ParamsType}.

(** What [ValidateParam] holds besides [type]; [JSX.Element]; and the two
    callbacks of [ChangeMethods]. *)
Variables Params Element ChangeMethods : Type.

(** [ValidateParam], split as [const { type, ...params } = data] splits it. *)
Record ValidateParam := { param_type : ParamsType; params : Params }.

(** [ComponentProps = { data: ValidateParam } & ChangeMethods] *)
Record ComponentProps := { data : ValidateParam; methods : ChangeMethods }.

(** [FactoryProps<T> = { data: OmitType<T> } & ChangeMethods] *)
Record FactoryProps := { create_data : Params; create_methods : ChangeMethods }.

(** [interface Factory] *)
Record Factory := { type : ParamsType; create : FactoryProps -> Element }.

(** The field [factories] of the class. *)
Abbreviation Factories := (gmap ParamsType Factory).

(** [factories.forEach((factory) => { this.factories[factory.type] = factory; })] *)
Definition registerFactories (factories : list Factory) (this : Factories) : Factories :=
  fold_left (fun this factory => <[type factory := factory]> this) factories this.

(** The constructor registers the factories of twelve classes that are
    imported from other files; they are the argument [factories]. *)
Definition constructor (factories : list Factory) : Factories :=
  registerFactories factories ∅.

(** [this.factories[type]?.create(createProps)].  The object [factories] is
    modelled by the properties assigned to it: the lookup of a tag without a
    factory gives [None], as the code gives [undefined] for every tag that
    does not name a property all objects inherit ([constructor], [toString],
    ...). *)
Definition component (this : Factories) (props : ComponentProps) : option Element :=
  let type := param_type (data props) in
  let params := params (data props) in
  let createProps := {| create_data := params; create_methods := methods props |} in
  match this !! type with
  | Some factory => Some (create factory createProps)
  | None => None
  end.

End Registry.

End CompoFactory.

(** ** The scroll handler of [JenericComponent] *)

Module JenericComponent.

Section ScrollHandler.

Variable Err : Type.

(** The callback [onPagination]. *)
Variable Callback : Type.

(** The three layout numbers the handler reads from an [HTMLElement]. *)
Record HTMLElement := { scrollTop : Z; clientHeight : Z; scrollHeight : Z }.

(** [React.RefObject<HTMLElement>] *)
Record RefObject := { current : option HTMLElement }.

(** What the closure of the handler captures at render time. *)
Record Captured := {
  loadingState : option (FileSystemLogic.LoadingState Err);
  onPagination : option Callback;
  contentRef : option RefObject;
  scrollContainer : option RefObject
}.

(** [ref !== null && ref.current] *)
Definition element_of (ref : option RefObject) : option HTMLElement :=
  match ref with
  | Some r => current r
  | None => None
  end.

(** The function given to [debounce]; the result lists the callbacks it
    invokes. *)
Definition scrollHandler (p : Captured) : list Callback :=
  let is_loading :=
    match loadingState p with
    | Some l => FileSystemLogic.loading l
    | None => false
    end in
  match negb is_loading, onPagination p, element_of (contentRef p),
        element_of (scrollContainer p) with
  | true, Some callback, Some inner, Some outer =>
      if scrollHeight inner - (scrollTop outer + clientHeight outer) <=? 35
      then [callback]
      else []
  | _, _, _, _ => []
  end.

End ScrollHandler.

End JenericComponent.

(** ** The dashboard field card: [function FieldItem] *)

Module FieldItem.

(** [{ data_date_from, data_date_to }], the value of [Period]. *)
Record Period := { data_date_from : string; data_date_to : string }.

Section Card.

(** [FieldType] and [DateScale] are enums imported from [../types] and
    [../types/api/values_date]; the members this file names are parameters. *)
Context {FieldType DateScale : Type} `{EqDecision FieldType} `{EqDecision DateScale}.

Variables FieldType_time FieldType_week FieldType_month FieldType_datetimeLocal
  FieldType_date : FieldType.

Variables DateScale_year DateScale_month DateScale_week DateScale_day DateScale_hour
  DateScale_minute : DateScale.

(** [String(field.type)] *)
Variable type_name : FieldType -> string.

(** What the handlers receive from the chart ([string | number | Date]), with
    [new Date(value)] and [String(value)]. *)
Variables Value Date : Type.
Variable newDate : Value -> Date.
Variable valueToString : Value -> string.

(** luxon: [DateTime.fromJSDate(date).startOf(scale).toISO({ includeOffset: false })],
    the same with [endOf]; [DateTime.fromFormat(time, 'HH').startOf('hour').toFormat('HH:mm')],
    the same with [endOf]; and [DateTime.fromISO(iso).toFormat(format)]. *)
Variables startOfISO endOfISO : Date -> DateScale -> string.
Variables startOfHour endOfHour : string -> string.
Variable toFormat : string -> string -> string.

(** The five tables imported from [../utils], from a scale to the next finer
    one, and the two tables imported from [../constants]. *)
Variables DateTimeNextScaleMap DateNextScaleMap MonthNextScaleMap WeekNextScaleMap
  TimeNextScaleMap : DateScale -> option DateScale.
Variables UNIQUE_DATA_MAP NOUNIQUE_DATA_MAP : gmap string string.

(** What the card reads of [IntegrateFieldStructure]: [scaling] is present
    when ['scale' in field] and then holds [field.scale] and [field.period]. *)
Record Field := {
  title : string;
  type : FieldType;
  scaling : option (DateScale * Period)
}.

(** [isDateTypeField], imported from [../utils]. *)
Variable isDateTypeField : Field -> bool.

(** The two callbacks of the props that the handlers invoke. *)
Inductive Callback :=
| onResetDataScale (field : string)
| onChangeDataScale (period : Period) (scale : DateScale) (field : string).

Definition prevScale (field : Field) : option string :=
  match scaling field with
  | Some (scale, period) =>
      if bool_decide (type field <> FieldType_time)
         && bool_decide (type field <> FieldType_week)
         && bool_decide (type field <> FieldType_month)
      then
        if bool_decide (scale = DateScale_month)
        then Some (toFormat (data_date_from period) "yyyy")
        else if bool_decide (scale = DateScale_day)
        then Some (toFormat (data_date_from period) "yyyy-MM")
        else if bool_decide (scale = DateScale_hour)
        then Some (toFormat (data_date_from period) "yyyy-MM-dd")
        else if bool_decide (scale = DateScale_minute)
        then Some (toFormat (data_date_from period) "yyyy-MM-dd HH:00")
        else None
      else None
  | None => None
  end.

Definition onDateTimeFormatting (date : Date) (scale : DateScale) (withOffset : bool)
  : Period :=
  {| data_date_from := startOfISO date scale ++ (if withOffset then "Z" else "");
     data_date_to := endOfISO date scale ++ (if withOffset then "Z" else "") |}.

Definition onTimeFormatting (time : string) : Period :=
  {| data_date_from := startOfHour time; data_date_to := endOfHour time |}.

(** ['scale' in field ? field.scale : fallback] *)
Definition scale_or (field : Field) (fallback : DateScale) : DateScale :=
  match scaling field with
  | Some (scale, _) => scale
  | None => fallback
  end.

(** [table[scale] || scale] *)
Definition next_or_same (table : DateScale -> option DateScale) (scale : DateScale)
  : DateScale :=
  default scale (table scale).

Definition onChangeDateScaleDate (field : Field) (value : Value) : list Callback :=
  if isDateTypeField field then
    let date := newDate value in
    if bool_decide (type field = FieldType_datetimeLocal) then
      let scale := scale_or field DateScale_year in
      if bool_decide (scale <> DateScale_minute) then
        let dataPeriod := onDateTimeFormatting date scale false in
        [onChangeDataScale dataPeriod (next_or_same DateTimeNextScaleMap scale) (title field)]
      else []
    else if bool_decide (type field = FieldType_date) then
      let scale := scale_or field DateScale_year in
      if bool_decide (scale <> DateScale_day) then
        let dataPeriod := onDateTimeFormatting date scale true in
        [onChangeDataScale dataPeriod (next_or_same DateNextScaleMap scale) (title field)]
      else []
    else if bool_decide (type field = FieldType_month) then
      let scale := scale_or field DateScale_year in
      if bool_decide (scale <> DateScale_month) then
        let dataPeriod := onDateTimeFormatting date scale true in
        [onChangeDataScale dataPeriod (next_or_same MonthNextScaleMap scale) (title field)]
      else []
    else if bool_decide (type field = FieldType_week) then
      let scale := scale_or field DateScale_year in
      if bool_decide (scale <> DateScale_week) then
        let dataPeriod := onDateTimeFormatting date scale true in
        [onChangeDataScale dataPeriod (next_or_same WeekNextScaleMap scale) (title field)]
      else []
    else if bool_decide (type field = FieldType_time) then
      let scale := scale_or field DateScale_hour in
      if bool_decide (scale <> DateScale_minute) then
        let select := valueToString value in
        let dataPeriod := onTimeFormatting select in
        [onChangeDataScale dataPeriod (next_or_same TimeNextScaleMap scale) (title field)]
      else []
    else []
  else [].

Definition isDisabledPrevControl (field : Field) : bool :=
  match scaling field with
  | Some (scale, _) =>
      if bool_decide (type field = FieldType_time)
      then bool_decide (scale = DateScale_hour)
      else bool_decide (scale = DateScale_year)
  | None => true
  end.

Definition setStartScale (field : Field) : list Callback :=
  [onResetDataScale (title field)].

Definition onChangePrevDataScale (field : Field) (value : Value) : list Callback :=
  let date := newDate value in
  match scaling field with
  | Some (scale, _) =>
      if bool_decide (scale = DateScale_month) then setStartScale field
      else if bool_decide (scale = DateScale_day) then
        let dataPeriod := onDateTimeFormatting date DateScale_month false in
        [onChangeDataScale dataPeriod DateScale_month (title field)]
      else if bool_decide (scale = DateScale_hour) then
        let dataPeriod := onDateTimeFormatting date DateScale_day false in
        [onChangeDataScale dataPeriod DateScale_day (title field)]
      else if bool_decide (scale = DateScale_minute) then
        let dataPeriod := onDateTimeFormatting date DateScale_hour false in
        [onChangeDataScale dataPeriod DateScale_hour (title field)]
      else []
  | None => []
  end.

(** [['email', 'file', 'tel'].includes(field.type)] *)
Definition uniqueDataField (field : Field) : bool :=
  existsb (String.eqb (type_name (type field))) ["email"; "file"; "tel"]%string.

(** [table[key] || cell]: a missing entry and an empty string are falsy. *)
Definition entry_or (table : gmap string string) (key cell : string) : string :=
  match table !! key with
  | Some x => if String.eqb x "" then cell else x
  | None => cell
  end.

Definition onFormattedDataField (field : Field) (cell : string) : string :=
  if uniqueDataField field && String.eqb cell "name" then
    entry_or UNIQUE_DATA_MAP (type_name (type field)) cell
  else if negb (uniqueDataField field)
          || (uniqueDataField field && negb (String.eqb cell "name")) then
    entry_or NOUNIQUE_DATA_MAP cell cell
  else cell.

End Card.

Section Responses.

(** The items of a page and the values of the keys this file does not read. *)
Variables Item Other : Type.

Inductive JsValue :=
| JsNumber (n : Z)
| JsArray (items : list Item)
| JsOther (v : Other).

(** What [APIService.request] resolves to, as far as the card reads it. *)
Record Response := {
  data : option (gmap string JsValue);
  total_count : option Z;
  next_id : option Z
}.

(** [n || 0] *)
Definition or_zero (n : option Z) : JsValue := JsNumber (default 0 n).

(** The value [onGroupableRequest] resolves to, given the response. *)
Definition onGroupableRequest (response : Response) : gmap string JsValue :=
  let result : gmap string JsValue :=
    {[ "items"%string := JsArray []; "total_count"%string := JsNumber 0;
       "next_id"%string := JsNumber 0 ]} in
  match data response with
  | Some d =>
      let rest := delete "type"%string d in
      <[ "next_id"%string := or_zero (next_id response) ]>
        (<[ "total_count"%string := or_zero (total_count response) ]> (rest ∪ result))
  | None => result
  end.

(** The value [onDateRequest] resolves to. *)
Definition onDateRequest (response : Response) : gmap string JsValue :=
  let result : gmap string JsValue :=
    {[ "items"%string := JsArray []; "total_count"%string := JsNumber 0;
       "next_id"%string := JsNumber 0 ]} in
  match data response with
  | Some d =>
      let rest := delete "type"%string d in
      <[ "next_id"%string := or_zero (next_id response) ]>
        (<[ "total_count"%string := or_zero (total_count response) ]> (rest ∪ result))
  | None => result
  end.

(** The value [onNumberRequest] resolves to. *)
Definition onNumberRequest (response : Response) : gmap string JsValue :=
  let result : gmap string JsValue :=
    {[ "items"%string := JsArray []; "median"%string := JsNumber 0;
       "average"%string := JsNumber 0; "next_id"%string := JsNumber 0 ]} in
  match data response with
  | Some d =>
      let rest := delete "type"%string d in
      <[ "next_id"%string := or_zero (next_id response) ]> (rest ∪ result)
  | None => result
  end.

(** The value [onDataRequest] resolves to. *)
Definition onDataRequest (response : Response) : gmap string JsValue :=
  let result : gmap string JsValue :=
    {[ "items"%string := JsArray []; "total_count"%string := JsNumber 0;
       "next_id"%string := JsNumber 0 ]} in
  match data response with
  | Some d =>
      let rest := delete "type"%string d in
      <[ "next_id"%string := or_zero (next_id response) ]>
        (<[ "total_count"%string := or_zero (total_count response) ]> (rest ∪ result))
  | None => result
  end.

End Responses.

Arguments JsNumber {Item Other} n.
Arguments JsArray {Item Other} items.
Arguments JsOther {Item Other} v.

End FieldItem.

(** ** Counting and listing by selection flag *)

Import FileSystemLogic.

(** The number of items of [l] whose selected flag is [b]. *)
Fixpoint count_flag (b : bool) (l : list Content) : nat :=
  match l with
  | [] => O
  | x :: l' => (if Bool.eqb (selected x) b then 1 else 0) + count_flag b l'
  end.

(** The ids of the items of [l] whose selected flag is [b], in list order. *)
Fixpoint ids_flagged (b : bool) (l : list Content) : list Z :=
  match l with
  | [] => []
  | x :: l' => if Bool.eqb (selected x) b then id x :: ids_flagged b l' else ids_flagged b l'
  end.

Section Vocabulary.

Variable Err : Type.
Implicit Types (s : State Err) (o : Oracle Err) (i : option Z).

(** [remove] and [move] differ only in the request they await. *)
Definition is_remove_or_move (toDir : Z) i (op : State Err -> Run Err) : Prop :=
  op = remove i \/ op = move toDir i.

(** The guard of [remove] and [move]. *)
Definition has_selection i s : bool :=
  selectedAll s || (0 <? length (getSelected i s))%nat.

(** A method keeps a loading state when neither its synchronous part nor its
    continuation, on whatever store it resumes, changes it. *)
Definition keeps (f : State Err -> LoadingState Err) (op : State Err -> Run Err) : Prop :=
  forall s s2 o,
    f (now (op s)) = f s
    /\ f (now (resume (self (op s)) o s2)) = f s2
    /\ f (now (settle o (op s))) = f s.

(** A method keeps the pagination state unless its continuation calls
    [pagination()] and that call starts a request. *)
Definition keeps_or_paginates (op : State Err -> Run Err) : Prop :=
  forall s s2 o,
    paginationState (now (op s)) = paginationState s
    /\ forked (op s) = []
    /\ let fin := resume (self (op s)) o s2 in
       match forked fin with
       | [] => paginationState (now fin) = paginationState s2
       | _ => paginationState (now fin) = spread (paginationState s2) in_flight
              /\ issued fin = [requestContentData]
       end.

End Vocabulary.

(** Example stores, with thrown values that are strings. *)
Module Examples.

Definition by_name_desc : gmap string Z := {[ "name"%string := -1 ]}.

Definition item (i : Z) (n : string) (b : bool) : Content :=
  {| id := i; name := n; selected := b |}.

Definition idle : LoadingState string := {| loading := false; error := None |}.

(** Three loaded items of twelve, the second one selected. *)
Definition three_of_twelve : State string :=
  {| content := [item 5 "a" false; item 6 "b" true; item 7 "c" false];
     totalCount := 12; nextId := 3; sort := by_name_desc;
     state := idle; paginationState := idle; actionState := idle;
     selectedAll := false; removedElements := None |}.

(** The same list after "select all", with the second item taken out again. *)
Definition all_but_one : State string :=
  onToggleSelected 6 false (toggleSelectedAll true three_of_twelve).

(** Every request fails with the same error. *)
Definition failing (e : string) : Oracle string := fun c => Rejected e.

(** Every request succeeds; [requestContentData] answers [response]. *)
Definition serving (response : Request) : Oracle string :=
  fun c =>
    match c with
    | requestContentData => Resolved response
    | requestContentMove _ _ _ => Resolved tt
    | requestContentRemove _ _ => Resolved tt
    | requestContentRename _ _ => Resolved tt
    end.

Definition page : Request :=
  {| data := Some [{| cs_id := 8; cs_name := "d" |}]; next_id := 4; total_count := 12 |}.

End Examples.

(** Factories over string tags, integer parameters and elements that are
    described by a string. *)
Module DispatchExamples.

Import CompoFactory.

Definition text : Factory (ParamsType:=string) Z string unit :=
  {| type := "text"%string; create := fun _ => "text input"%string |}.

Definition plain_color : Factory (ParamsType:=string) Z string unit :=
  {| type := "color"%string; create := fun _ => "hex input"%string |}.

Definition color : Factory (ParamsType:=string) Z string unit :=
  {| type := "color"%string;
     create := fun p => if create_data p =? 0 then "empty swatch"%string
                        else "swatch"%string |}.

Definition props : ComponentProps (ParamsType:=string) Z unit :=
  {| data := {| param_type := "color"%string; params := 3 |}; methods := tt |}.

End DispatchExamples.

(** A scroll position 20 pixels above the bottom of the content. *)
Module ScrollExamples.

Import JenericComponent.

Definition near_bottom : Captured string unit :=
  {| loadingState := Some {| loading := false; error := None |};
     onPagination := Some tt;
     contentRef := Some {| current := Some {| scrollTop := 0; clientHeight := 900;
                                              scrollHeight := 900 |} |};
     scrollContainer := Some {| current := Some {| scrollTop := 480; clientHeight := 400;
                                                   scrollHeight := 400 |} |} |}.

End ScrollExamples.

(** ** Further vocabulary *)

(** Changing the first item with a given id, by a function that keeps ids. *)
Definition alter_first (f : Content -> Content) (i : Z) (l : list Content) : list Content :=
  match findIndex (fun item => id item =? i) l with
  | Some index => alter f index l
  | None => l
  end.

(** A comparator that never puts two elements after each other both ways. *)
Definition decides {A : Type} (cmp : A -> A -> Z) : Prop :=
  forall x y, 0 < cmp x y -> cmp y x <= 0.

(** What the comparison of two strings by code units is: a strict order in
    which "not less" is transitive. *)
Definition strict_order (lt : string -> string -> bool) : Prop :=
  (forall x y, lt x y = true -> lt y x = false)
  /\ (forall x y z, lt y x = false -> lt z y = false -> lt z x = false).

(** The ids [removeContent] deletes by when it does not keep the exceptions. *)
Definition ids_to_remove {Err : Type} (i : option Z) (s : State Err) : list Z :=
  match i with
  | Some j => if j =? 0 then getAllSelectedIds s else [j]
  | None => getAllSelectedIds s
  end.

(** When the continuation of [remove] or [move] starts a page: exactly when
    the request was issued and has resolved, [removeContent] takes the branch
    that calls [pagination()] (an id is passed or "select all" is off), and
    the guard of [pagination()] passes on the store the continuation resumes
    on, with [totalCount] already lowered by the number of ids. *)
Definition starts_page_exactly {Err : Type} (i : option Z) (op : State Err -> Run Err)
  : Prop :=
  forall s s2 o,
    forked (resume (self (op s)) o s2) <> [] <->
      (exists c, awaiting (self (op s)) = Some c /\ is_resolved (o c) = true)
      /\ (is_Some i \/ selectedAll s2 = false)
      /\ 0 < nextId s2
      /\ nextId s2 < totalCount s2 - Z.of_nat (length (ids_to_remove i s2)).

Section RegistryVocabulary.

Context {ParamsType : Type} `{EqDecision ParamsType}.
Variables Params Element ChangeMethods : Type.

Abbreviation AnyFactory :=
  (CompoFactory.Factory (ParamsType:=ParamsType) Params Element ChangeMethods).

(** The factory that stands for a tag after registering a list in order: the
    last one of the list with that tag. *)
Fixpoint registered (t : ParamsType) (factories : list AnyFactory) : option AnyFactory :=
  match factories with
  | [] => None
  | g :: rest =>
      match registered t rest with
      | Some f => Some f
      | None => if decide (CompoFactory.type g = t) then Some g else None
      end
  end.

End RegistryVocabulary.

(** The captured values with the scroll container scrolled to [top]. *)
Definition scrolled_to {Err Callback : Type} (top : Z)
    (p : JenericComponent.Captured Err Callback) : JenericComponent.Captured Err Callback :=
  let moved (outer : JenericComponent.HTMLElement) : JenericComponent.HTMLElement :=
    {| JenericComponent.scrollTop := top;
       JenericComponent.clientHeight := JenericComponent.clientHeight outer;
       JenericComponent.scrollHeight := JenericComponent.scrollHeight outer |} in
  {| JenericComponent.loadingState := JenericComponent.loadingState p;
     JenericComponent.onPagination := JenericComponent.onPagination p;
     JenericComponent.contentRef := JenericComponent.contentRef p;
     JenericComponent.scrollContainer :=
       match JenericComponent.scrollContainer p with
       | Some {| JenericComponent.current := Some outer |} =>
           Some {| JenericComponent.current := Some (moved outer) |}
       | other => other
       end |}.

Section CardVocabulary.

Context {FieldType DateScale : Type}.
Variables FieldType_time FieldType_week FieldType_month FieldType_datetimeLocal
  FieldType_date : FieldType.
Variables DateScale_year DateScale_month DateScale_week DateScale_day DateScale_hour
  DateScale_minute : DateScale.
Variables DateTimeNextScaleMap DateNextScaleMap MonthNextScaleMap WeekNextScaleMap
  TimeNextScaleMap : DateScale -> option DateScale.

(** The five date-like field types with, for each, the scale a field without
    scale starts from, the scale at which drilling down stops, and the table
    of next scales. *)
Definition drill_down : list (FieldType * (DateScale * DateScale
                                             * (DateScale -> option DateScale))) :=
  [(FieldType_datetimeLocal, (DateScale_year, DateScale_minute, DateTimeNextScaleMap));
   (FieldType_date, (DateScale_year, DateScale_day, DateNextScaleMap));
   (FieldType_month, (DateScale_year, DateScale_month, MonthNextScaleMap));
   (FieldType_week, (DateScale_year, DateScale_week, WeekNextScaleMap));
   (FieldType_time, (DateScale_hour, DateScale_minute, TimeNextScaleMap))].

End CardVocabulary.

(** Further example stores and oracles. *)
Module MoreExamples.

(** Every item of the list selected, nothing more to load. *)
Definition all_loaded : State string :=
  setTotalCount 3 (toggleSelectAll true Examples.three_of_twelve).

(** The list sorted ascending by name. *)
Definition ascending : State string :=
  setSort {[ "name"%string := 1 ]} Examples.three_of_twelve.

End MoreExamples.

(** A date field at the scale of days, with enum members that are strings. *)
Module CardExamples.

Definition by_day : FieldItem.Field (FieldType:=string) (DateScale:=string) :=
  {| FieldItem.title := "Birthday";
     FieldItem.type := "date"%string;
     FieldItem.scaling :=
       Some ("day"%string,
             {| FieldItem.data_date_from := "2024-03-01T00:00:00.000";
                FieldItem.data_date_to := "2024-03-31T23:59:59.999" |}) |}.

(** A stand-in for luxon's [toFormat]: the format followed by the date. *)
Definition toFormat (iso format : string) : string := format ++ " of " ++ iso.

(** Stand-ins for luxon's [startOf] and [endOf]. *)
Definition startOfISO (date scale : string) : string := scale ++ " start of " ++ date.
Definition endOfISO (date scale : string) : string := scale ++ " end of " ++ date.

End CardExamples.

(** * Properties *)

Section Selection.

Variable Err : Type.
Implicit Types (s : State Err) (l : list Content).

Lemma filter_selected_length l :
  length (List.filter (fun x => selected x) l) = count_flag true l.
Proof.
  induction l as [|x l IH]; simpl; [reflexivity|].
  destruct (selected x); simpl; rewrite IH; reflexivity.
Qed.

Lemma filter_unselected_length l :
  length (List.filter (fun x => negb (selected x)) l) = count_flag false l.
Proof.
  induction l as [|x l IH]; simpl; [reflexivity|].
  destruct (selected x); simpl; rewrite IH; reflexivity.
Qed.

Lemma filter_selected_ids l :
  map id (List.filter (fun x => selected x) l) = ids_flagged true l.
Proof.
  induction l as [|x l IH]; simpl; [reflexivity|].
  destruct (selected x); simpl; rewrite IH; reflexivity.
Qed.

Lemma filter_unselected_ids l :
  map id (List.filter (fun x => negb (selected x)) l) = ids_flagged false l.
Proof.
  induction l as [|x l IH]; simpl; [reflexivity|].
  destruct (selected x); simpl; rewrite IH; reflexivity.
Qed.

Lemma ids_flagged_spec b l i :
  In i (ids_flagged b l) <-> exists x, In x l /\ selected x = b /\ id x = i.
Proof.
  induction l as [|x l IH]; simpl.
  - split; [intros [] | intros (x & [] & _)].
  - destruct (Bool.eqb (selected x) b) eqn:E.
    + apply Bool.eqb_prop in E. simpl. rewrite IH. split.
      * intros [<- | (y & Hy & Hb & Hi)]; [exists x | exists y]; auto.
      * intros (y & [<- | Hy] & Hb & Hi); [left | right; exists y]; auto.
    + rewrite IH. split.
      * intros (y & Hy & Hb & Hi). exists y; auto.
      * intros (y & [<- | Hy] & Hb & Hi).
        -- rewrite Hb, Bool.eqb_reflx in E. discriminate.
        -- exists y; auto.
Qed.

(** C2. In every state the selected count follows the select-all flag: with the
    flag set it is [totalCount] minus the number of loaded items whose selected
    flag is false; without it, it is the number of loaded items whose selected
    flag is true, which is zero for an empty list. *)
Theorem selectedCount_consistent s :
  selectedCount s =
    (if selectedAll s
     then totalCount s - Z.of_nat (count_flag false (content s))
     else Z.of_nat (count_flag true (content s)))
  /\ (selectedAll s = false -> content s = [] -> selectedCount s = 0).
Proof.
  unfold selectedCount. split.
  - destruct (selectedAll s).
    + rewrite filter_unselected_length. reflexivity.
    + destruct (content s) as [|x l] eqn:E; [reflexivity|].
      change (0 <? length (x :: l))%nat with true. cbv iota.
      rewrite filter_selected_length. reflexivity.
  - intros -> ->. reflexivity.
Qed.

(** C3. In every state [getSelectedIds] returns the ids of the loaded items
    whose selected flag is false when the select-all flag is set, and the ids
    of those whose selected flag is true when it is not; so under "select all"
    the list names the exceptions. *)
Theorem getSelectedIds_inverse s :
  getSelectedIds s =
    (if selectedAll s then ids_flagged false (content s) else ids_flagged true (content s))
  /\ forall i, In i (getSelectedIds s) <->
       exists x, In x (content s) /\ selected x = negb (selectedAll s) /\ id x = i.
Proof.
  assert (E : getSelectedIds s = ids_flagged (negb (selectedAll s)) (content s)).
  { unfold getSelectedIds, getAllUnselectedIds, getAllSelectedIds.
    destruct (selectedAll s); simpl;
      [apply filter_unselected_ids | apply filter_selected_ids]. }
  split.
  - rewrite E. destruct (selectedAll s); reflexivity.
  - intros i. rewrite E. apply ids_flagged_spec.
Qed.

End Selection.

Section Requests.

Variable Err : Type.
Implicit Types (s : State Err) (o : Oracle Err) (e : Err).

(** C7. [pagination()] issues the content-data request exactly when the stored
    cursor is above 0 and below [totalCount]; otherwise it issues nothing and
    leaves the whole state as it was. *)
Theorem pagination_guard s :
  (issued (pagination s) = [requestContentData] <-> 0 < nextId s /\ nextId s < totalCount s)
  /\ (~ (0 < nextId s /\ nextId s < totalCount s) -> pagination s = finished s)
  /\ (0 < nextId s /\ nextId s < totalCount s -> pagination s = paginationRequest s).
Proof.
  unfold pagination.
  destruct (0 <? nextId s) eqn:E1; destruct (nextId s <? totalCount s) eqn:E2; simpl;
    try apply Z.ltb_lt in E1; try apply Z.ltb_ge in E1;
    try apply Z.ltb_lt in E2; try apply Z.ltb_ge in E2;
    (split; [split; [intros Hi; first [lia | discriminate Hi] | intros; first [reflexivity | lia]]
            | split; intros; first [reflexivity | lia]]).
Qed.

(** C6. When the initial content request or the pagination request resolves with
    a response that has its [data], the stored cursor afterwards is the
    [next_id] of that response, whatever the store holds when the promise
    settles. *)
Theorem cursor_is_server_supplied s s2 o response d :
  o requestContentData = Resolved response ->
  data response = Some d ->
  nextId (now (resume (self (contentRequest s)) o s2)) = next_id response
  /\ nextId (now (resume (self (paginationRequest s)) o s2)) = next_id response
  /\ nextId (now (settle o (contentRequest s))) = next_id response
  /\ nextId (now (settle o (paginationRequest s))) = next_id response.
Proof.
  intros Ho Hd. unfold settle, contentRequest, paginationRequest, resume. simpl.
  rewrite Ho, Hd. simpl. auto.
Qed.

End Requests.

(** The request of the example resolves with a page, and the cursor becomes
    the page's [next_id]. *)
Lemma cursor_is_server_supplied_example :
  nextId (now (settle (Examples.serving Examples.page)
                 (paginationRequest Examples.three_of_twelve))) = 4.
Proof.
  refine (proj2 (proj2 (proj2
    (@cursor_is_server_supplied string Examples.three_of_twelve Examples.three_of_twelve
       (Examples.serving Examples.page) Examples.page
       [{| cs_id := 8; cs_name := "d" |}] _ _)))); reflexivity.
Defined.

Section Actions.

Variable Err : Type.
Implicit Types (s : State Err) (o : Oracle Err) (e : Err) (i : option Z)
  (op : State Err -> Run Err).

Lemma awaiting_remove i s :
  awaiting (self (remove i s)) =
    if has_selection i s
    then Some (requestContentRemove (getSelected i s) (if selectedAll s then search else by_id))
    else None.
Proof. unfold remove, has_selection. destruct (_ || _); reflexivity. Qed.

Lemma awaiting_move toDir i s :
  awaiting (self (move toDir i s)) =
    if has_selection i s
    then Some (requestContentMove (getSelected i s) (if selectedAll s then search else by_id) toDir)
    else None.
Proof. unfold move, has_selection. destruct (_ || _); reflexivity. Qed.

(** The synchronous part of [remove] and [move] writes the action state only. *)
Lemma remove_move_begin toDir i op s :
  is_remove_or_move toDir i op ->
  forked (op s) = []
  /\ now (op s) = (if has_selection i s then changeActionState in_flight s else s).
Proof.
  unfold has_selection.
  intros [-> | ->]; unfold remove, move; destruct (_ || _); simpl; auto.
Qed.

(** What the continuation of [remove] and [move] does with a rejection. *)
Lemma remove_move_rejected toDir i op s s2 o e c :
  is_remove_or_move toDir i op ->
  awaiting (self (op s)) = Some c ->
  o c = Rejected e ->
  resume (self (op s)) o s2 = finished (changeActionState (settled_error e) s2).
Proof.
  intros [-> | ->]; unfold remove, move; destruct (_ || _); simpl;
    intros Hc Ho; try discriminate Hc; injection Hc as <-; rewrite Ho; reflexivity.
Qed.

(** What the continuation of [remove] and [move] does once the request has
    resolved. *)
Lemma remove_move_resolved toDir i op s s2 o c :
  is_remove_or_move toDir i op ->
  awaiting (self (op s)) = Some c ->
  is_resolved (o c) = true ->
  resume (self (op s)) o s2 =
    {| self := Done;
       now := changeActionState settled_ok (fst (removeContent i s2));
       forked := snd (removeContent i s2) |}.
Proof.
  intros [-> | ->]; unfold remove, move; destruct (_ || _); simpl;
    intros Hc Ho; try discriminate Hc; injection Hc as <-;
    (destruct (o _); [|discriminate Ho]);
    destruct (removeContent i s2); reflexivity.
Qed.

Lemma toggled_off (l : list Content) :
  Forall (fun x => selected x = false) (map (with_selected false) l).
Proof. induction l as [|x l IH]; simpl; constructor; [reflexivity | exact IH]. Qed.

(** [removeContent] ends with [setSelectedAll(false)] and
    [toggleSelectAll(false)]. *)
Lemma removeContent_selection i s :
  selectedAll (fst (removeContent i s)) = false
  /\ Forall (fun x => selected x = false) (content (fst (removeContent i s))).
Proof.
  unfold removeContent.
  destruct (bool_decide (is_Some i) || negb (selectedAll s)).
  - destruct (detach _) as [s' spawned]. simpl. split; [reflexivity|].
    apply toggled_off.
  - simpl. split; [reflexivity|]. apply toggled_off.
Qed.

(** C4. When the request of [remove] or [move] throws, the operation leaves the
    list as it was: [content] (and with it every item's selected flag),
    [totalCount], [nextId] and the select-all flag are unchanged, and the
    action loading state ends as [{ loading: false, error: e }]. *)
Theorem rejected_remove_move_is_atomic toDir i op s s2 o e c :
  is_remove_or_move toDir i op ->
  awaiting (self (op s)) = Some c ->
  o c = Rejected e ->
  let fin := now (settle o (op s)) in
  let late := now (resume (self (op s)) o s2) in
  (content fin = content s /\ totalCount fin = totalCount s /\ nextId fin = nextId s
   /\ selectedAll fin = selectedAll s
   /\ actionState fin = {| loading := false; error := Some e |}
   /\ self (settle o (op s)) = Done /\ forked (settle o (op s)) = [])
  /\ (content late = content s2 /\ totalCount late = totalCount s2 /\ nextId late = nextId s2
      /\ selectedAll late = selectedAll s2
      /\ actionState late = {| loading := false; error := Some e |}).
Proof.
  intros Hop Hc Ho fin late. subst fin late. unfold settle.
  destruct (remove_move_begin s Hop) as [Hf Hn].
  rewrite (remove_move_rejected s (now (op s)) o Hop Hc Ho).
  rewrite (remove_move_rejected s s2 o Hop Hc Ho).
  rewrite Hf, Hn. simpl.
  destruct (has_selection i s); simpl; repeat split; reflexivity.
Qed.

(** C10. Once the request of [remove] or [move] has succeeded, the selection is
    reset: the select-all flag is false and every item left in [content] has
    its selected flag false. *)
Theorem selection_reset_after_remove_move toDir i op s s2 o c :
  is_remove_or_move toDir i op ->
  awaiting (self (op s)) = Some c ->
  is_resolved (o c) = true ->
  let fin := now (settle o (op s)) in
  let late := now (resume (self (op s)) o s2) in
  (selectedAll fin = false /\ Forall (fun x => selected x = false) (content fin))
  /\ (selectedAll late = false /\ Forall (fun x => selected x = false) (content late)).
Proof.
  intros Hop Hc Ho fin late. subst fin late. unfold settle.
  rewrite (remove_move_resolved s (now (op s)) o Hop Hc Ho).
  rewrite (remove_move_resolved s s2 o Hop Hc Ho).
  simpl. split; apply removeContent_selection.
Qed.

End Actions.

Section LoadingStates.

Variable Err : Type.
Context {strings : JsString}.
Implicit Types (s : State Err) (o : Oracle Err) (i : option Z)
  (op : State Err -> Run Err) (f : State Err -> LoadingState Err).

Lemma keeps_settle f op :
  (forall s, f (now (op s)) = f s) ->
  (forall s s2 o, f (now (resume (self (op s)) o s2)) = f s2) ->
  keeps f op.
Proof.
  intros Hb Hr s s2 o. repeat split; auto.
  unfold settle. simpl. rewrite Hr. apply Hb.
Qed.

Lemma renameContent_loading (k : Z) n s :
  state (renameContent k n s) = state s
  /\ paginationState (renameContent k n s) = paginationState s
  /\ actionState (renameContent k n s) = actionState s.
Proof. unfold renameContent. destruct (findIndex _ _); simpl; auto. Qed.

Lemma rename_sorted_loading (k : Z) s :
  state (rename_sorted k s) = state s
  /\ paginationState (rename_sorted k s) = paginationState s
  /\ actionState (rename_sorted k s) = actionState s.
Proof.
  unfold rename_sorted. destruct (bool_decide _); [|auto].
  destruct (_ && _); simpl; auto.
Qed.

Lemma removeContent_loading i s :
  state (fst (removeContent i s)) = state s
  /\ actionState (fst (removeContent i s)) = actionState s
  /\ match snd (removeContent i s) with
     | [] => paginationState (fst (removeContent i s)) = paginationState s
     | _ => paginationState (fst (removeContent i s)) = spread (paginationState s) in_flight
            /\ omap (@awaiting Err) (snd (removeContent i s)) = [requestContentData]
     end.
Proof.
  unfold removeContent.
  destruct (bool_decide (is_Some i) || negb (selectedAll s)); [|simpl; auto].
  unfold detach, pagination.
  destruct (_ && _); destruct (0 <? length _)%nat; simpl; auto.
Qed.

(** [removeContent] starts a pagination request exactly when it took the
    branch that calls [pagination()] and the guard passes on the lowered
    [totalCount]. *)
Lemma removeContent_forks i s :
  let ids :=
    match i with
    | Some j => if j =? 0 then getAllSelectedIds s else [j]
    | None => getAllSelectedIds s
    end in
  snd (removeContent i s) <> [] <->
    (is_Some i \/ selectedAll s = false)
    /\ 0 < nextId s
    /\ nextId s < totalCount s - Z.of_nat (length ids).
Proof.
  intros ids. subst ids. unfold removeContent.
  destruct (bool_decide (is_Some i) || negb (selectedAll s)) eqn:Hb.
  - assert (Hi : is_Some i \/ selectedAll s = false).
    { apply orb_true_iff in Hb. destruct Hb as [Hb | Hb].
      - left. apply bool_decide_eq_true in Hb. exact Hb.
      - right. apply negb_true_iff in Hb. exact Hb. }
    unfold detach, pagination.
    destruct (0 <? length _)%nat; simpl;
      destruct (0 <? nextId s) eqn:E1; simpl;
      try destruct (nextId s <? _) eqn:E2; simpl;
      try apply Z.ltb_lt in E1; try apply Z.ltb_ge in E1;
      try apply Z.ltb_lt in E2; try apply Z.ltb_ge in E2;
      (split; [intros Hn; first [congruence | auto] | intros (_ & H1 & H2); first [lia | discriminate]]).
  - simpl. split; [congruence|]. intros ([Hi | Hi] & _).
    + apply orb_false_iff in Hb. destruct Hb as [Hb _].
      apply bool_decide_eq_false in Hb. contradiction.
    + rewrite Hi in Hb. rewrite orb_true_r in Hb. discriminate.
Qed.

(** The three ways the continuation of [remove] and [move] can go. *)
Lemma remove_move_resume toDir i op s s2 o :
  is_remove_or_move toDir i op ->
  resume (self (op s)) o s2 = finished s2
  \/ (exists e, resume (self (op s)) o s2 = finished (changeActionState (settled_error e) s2))
  \/ resume (self (op s)) o s2 =
       {| self := Done;
          now := changeActionState settled_ok (fst (removeContent i s2));
          forked := snd (removeContent i s2) |}.
Proof.
  intros Hop.
  destruct (awaiting (self (op s))) as [c|] eqn:Hc.
  - destruct (o c) as [a|e] eqn:Ho.
    + right; right. apply (remove_move_resolved s s2 o Hop Hc). rewrite Ho. reflexivity.
    + right; left. exists e. apply (remove_move_rejected s s2 o Hop Hc Ho).
  - left. destruct (self (op s)); [reflexivity | discriminate Hc].
Qed.

Lemma remove_move_keeps_state toDir i op :
  is_remove_or_move toDir i op -> keeps state op.
Proof.
  intros Hop. apply keeps_settle.
  - intros s. destruct (remove_move_begin s Hop) as [_ ->].
    destruct (has_selection i s); reflexivity.
  - intros s s2 o.
    destruct (remove_move_resume s s2 o Hop) as [-> | [[e ->] | ->]]; simpl; auto.
    apply removeContent_loading.
Qed.

Lemma remove_move_paginates toDir i op :
  is_remove_or_move toDir i op -> keeps_or_paginates op.
Proof.
  intros Hop s s2 o.
  destruct (remove_move_begin s Hop) as [Hf ->]. rewrite Hf.
  split; [destruct (has_selection i s); reflexivity|]. split; [reflexivity|].
  destruct (remove_move_resume s s2 o Hop) as [-> | [[e ->] | ->]]; simpl; auto.
  pose proof (removeContent_loading i s2) as (_ & _ & H3). unfold issued. simpl.
  destruct (snd (removeContent i s2)); [exact H3|].
  destruct H3 as [H3 H4]. rewrite H4. auto.
Qed.

Lemma remove_move_starts_page toDir i op :
  is_remove_or_move toDir i op -> starts_page_exactly i op.
Proof.
  intros Hop s s2 o.
  destruct (awaiting (self (op s))) as [c|] eqn:Hc.
  - destruct (o c) as [a|e] eqn:Ho.
    + assert (Hr : is_resolved (o c) = true) by (rewrite Ho; reflexivity).
      rewrite (remove_move_resolved s s2 o Hop Hc Hr). cbn [forked].
      pose proof (removeContent_forks i s2) as Hf. cbv zeta in Hf.
      unfold ids_to_remove. rewrite Hf. split.
      * intros H. split; [exists c; split; [reflexivity | exact Hr] | exact H].
      * intros [_ H]. exact H.
    + rewrite (remove_move_rejected s s2 o Hop Hc Ho). simpl.
      split; [congruence|].
      intros [(c' & Hc' & Hr) _]. injection Hc' as <-. rewrite Ho in Hr. discriminate Hr.
  - assert (E : resume (self (op s)) o s2 = finished s2)
      by (destruct (self (op s)); [reflexivity | discriminate Hc]).
    rewrite E. simpl. split; [congruence|].
    intros [(c' & Hc' & _) _]. discriminate Hc'.
Qed.

(** C5, as the code has it. Of the three loading states, [rename] writes the
    action state only; [remove] and [move] never write the initial state, and
    leave the pagination state alone unless their continuation calls
    [pagination()] and that call starts a request, which sets its loading flag;
    that happens exactly when the request of [remove] or [move] has resolved,
    an id is passed or "select all" is off, and [nextId] is above 0 and below
    [totalCount] lowered by the number of ids removed; the pagination request
    writes the pagination state only; the content request writes the initial
    state only. *)
Theorem loading_states_written (k toDir : Z) n i :
  let keeps := keeps (Err:=Err) in
  let keeps_or_paginates := keeps_or_paginates (Err:=Err) in
  (keeps state (rename k n) /\ keeps paginationState (rename k n))
  /\ (keeps state (remove i) /\ keeps_or_paginates (remove i)
      /\ starts_page_exactly (Err:=Err) i (remove i))
  /\ (keeps state (move toDir i) /\ keeps_or_paginates (move toDir i)
      /\ starts_page_exactly (Err:=Err) i (move toDir i))
  /\ (keeps state paginationRequest /\ keeps actionState paginationRequest)
  /\ (keeps state pagination /\ keeps actionState pagination)
  /\ (keeps paginationState contentRequest /\ keeps actionState contentRequest).
Proof.
  cbv zeta.
  assert (Hrename : forall f : State Err -> LoadingState Err,
             (f = state \/ f = paginationState) -> keeps f (rename k n)).
  { intros f Hf. apply keeps_settle.
    - intros s. destruct Hf as [-> | ->]; reflexivity.
    - intros s s2 o. unfold rename, resume. simpl.
      destruct (o _); simpl; [|destruct Hf as [-> | ->]; reflexivity].
      destruct (rename_sorted_loading k (renameContent k n s2)) as (H1 & H2 & _).
      destruct (renameContent_loading k n s2) as (H3 & H4 & _).
      destruct Hf as [-> | ->]; simpl; congruence. }
  assert (Hpage : forall f : State Err -> LoadingState Err,
             (f = state \/ f = actionState) -> keeps f paginationRequest).
  { intros f Hf. apply keeps_settle.
    - intros s. destruct Hf as [-> | ->]; reflexivity.
    - intros s s2 o. unfold paginationRequest, resume. simpl.
      destruct (o _) as [response|e]; simpl; [destruct (data response)|];
        destruct Hf as [-> | ->]; reflexivity. }
  assert (Hcontent : forall f : State Err -> LoadingState Err,
             (f = paginationState \/ f = actionState) -> keeps f contentRequest).
  { intros f Hf. apply keeps_settle.
    - intros s. destruct Hf as [-> | ->]; reflexivity.
    - intros s s2 o. unfold contentRequest, resume. simpl.
      destruct (o _) as [response|e]; simpl; [destruct (data response)|];
        destruct Hf as [-> | ->]; reflexivity. }
  assert (Hpagination : forall f : State Err -> LoadingState Err,
             (f = state \/ f = actionState) -> keeps f pagination).
  { intros f Hf s s2 o. unfold pagination.
    destruct (_ && _); [apply Hpage; exact Hf | simpl; auto]. }
  split; [split; apply Hrename; auto|].
  split; [split; [apply (@remove_move_keeps_state toDir i)
                 | split; [apply (@remove_move_paginates toDir i)
                          | apply (@remove_move_starts_page toDir i)]];
          left; reflexivity|].
  split; [split; [apply (@remove_move_keeps_state toDir i)
                 | split; [apply (@remove_move_paginates toDir i)
                          | apply (@remove_move_starts_page toDir i)]];
          right; reflexivity|].
  split; [split; apply Hpage; auto|].
  split; [split; apply Hpagination; auto|].
  split; apply Hcontent; auto.
Qed.

End LoadingStates.

Section Invocations.

Variable Err : Type.
Context {strings : JsString}.
Implicit Types (s : State Err) (i : option Z).

Lemma filtered_nonempty (p : Content -> bool) (l : list Content) :
  (0 <? length (map id (List.filter p l)))%nat = true <-> exists x, In x l /\ p x = true.
Proof.
  induction l as [|x l IH]; simpl.
  - split; [discriminate | intros (x & [] & _)].
  - destruct (p x) eqn:E; simpl.
    + split; [intros _; exists x; auto | reflexivity].
    + rewrite IH. split.
      * intros (y & Hy & Hp). exists y; auto.
      * intros (y & [<- | Hy] & Hp); [congruence | exists y; auto].
Qed.

(** C1, as the code has it. [rename] and [onChangeSort] invoke an abstract
    request on every invocation; [remove] and [move] invoke theirs exactly when
    the select-all flag is set, an id is passed or some loaded item is
    selected, and nothing otherwise; [onToggleSelected] invokes none. *)
Theorem requests_issued_by_operations (k toDir : Z) (n : string) (order : gmap string Z)
    (b : bool) i s :
  issued (rename k n s) = [requestContentRename k n]
  /\ issued (onChangeSort order s) = [requestContentData]
  /\ issued (remove i s) =
       (if has_selection i s
        then [requestContentRemove (getSelected i s) (if selectedAll s then search else by_id)]
        else [])
  /\ issued (move toDir i s) =
       (if has_selection i s
        then [requestContentMove (getSelected i s) (if selectedAll s then search else by_id) toDir]
        else [])
  /\ issued (finished (onToggleSelected k b s)) = []
  /\ (has_selection i s = true <->
      selectedAll s = true \/ is_Some i
      \/ exists x, In x (content s) /\ selected x = true).
Proof.
  split; [reflexivity|]. split; [reflexivity|].
  split; [unfold remove, has_selection; destruct (_ || _); reflexivity|].
  split; [unfold move, has_selection; destruct (_ || _); reflexivity|].
  split; [reflexivity|].
  unfold has_selection, getSelected, getSelectedIds.
  destruct (selectedAll s) eqn:Ha; simpl; [split; auto|].
  destruct i as [j|]; simpl.
  - split; [intros _; right; left; eexists; reflexivity | reflexivity].
  - unfold getAllSelectedIds. rewrite filtered_nonempty. split.
    + intros Hx. right; right. exact Hx.
    + intros [Hf | [[j Hj] | Hx]]; [discriminate Hf | discriminate Hj | exact Hx].
Qed.

End Invocations.

(** C1 as it is stated fails: with nothing selected [remove] and [move] return
    without a request, and [onToggleSelected] changes an item's flag without
    one. *)
Lemma operations_without_request :
  issued (remove None (blank string Examples.by_name_desc)) = []
  /\ issued (move 2 None (blank string Examples.by_name_desc)) = []
  /\ issued (finished (onToggleSelected 5 true Examples.three_of_twelve)) = []
  /\ content (onToggleSelected 5 true Examples.three_of_twelve)
     <> content Examples.three_of_twelve.
Proof. repeat split; try reflexivity. discriminate. Qed.

(** C4 at an example: removing item 6 fails with ["offline"]. *)
Lemma rejected_remove_example :
  content (now (settle (Examples.failing "offline") (remove (Some 6) Examples.three_of_twelve)))
    = content Examples.three_of_twelve
  /\ actionState (now (settle (Examples.failing "offline")
                         (remove (Some 6) Examples.three_of_twelve)))
     = {| loading := false; error := Some "offline"%string |}.
Proof.
  pose proof (@rejected_remove_move_is_atomic string 0 (Some 6) (remove (Some 6))
                Examples.three_of_twelve Examples.three_of_twelve
                (Examples.failing "offline") "offline"%string
                (requestContentRemove [6] by_id)
                (or_introl eq_refl) eq_refl eq_refl) as H.
  split; [exact (proj1 (proj1 H)) | exact (proj1 (proj2 (proj2 (proj2 (proj2 (proj1 H))))))].
Defined.

(** C10 at an example: moving everything but item 6 under "select all". *)
Lemma selection_reset_example :
  selectedAll (now (settle (Examples.serving Examples.page)
                      (move 9 None Examples.all_but_one))) = false
  /\ Forall (fun x => selected x = false)
       (content (now (settle (Examples.serving Examples.page)
                        (move 9 None Examples.all_but_one)))).
Proof.
  exact (proj1 (@selection_reset_after_remove_move string 9 None (move 9 None)
                  Examples.all_but_one Examples.all_but_one
                  (Examples.serving Examples.page)
                  (requestContentMove [6] search 9)
                  (or_intror eq_refl) eq_refl eq_refl)).
Defined.

(** C5 as it is stated fails: removing item 5 of three loaded items out of
    twelve makes [removeContent] call [pagination()], whose guard passes, so
    the run of [remove] sets the loading flag of the pagination state. *)
Lemma remove_writes_pagination_state :
  paginationState (now (settle (Examples.serving Examples.page)
                          (remove (Some 5) Examples.three_of_twelve)))
    = {| loading := true; error := None |}
  /\ paginationState Examples.three_of_twelve = {| loading := false; error := None |}
  /\ omap awaiting (forked (settle (Examples.serving Examples.page)
                              (remove (Some 5) Examples.three_of_twelve)))
     = [requestContentData].
Proof. repeat split. Qed.

Section Dispatch.

Import CompoFactory.

Context {ParamsType : Type} `{Countable ParamsType}.
Variables Params Element ChangeMethods : Type.

Abbreviation FactoryOf := (Factory (ParamsType:=ParamsType) Params Element ChangeMethods).

Implicit Types (f g : FactoryOf) (factories : list FactoryOf)
  (this : gmap ParamsType FactoryOf).

Lemma registerFactories_app factories1 factories2 this :
  registerFactories (factories1 ++ factories2) this
  = registerFactories factories2 (registerFactories factories1 this).
Proof. unfold registerFactories. apply fold_left_app. Qed.

(** Registering factories of other tags leaves an entry as it is. *)
Lemma registerFactories_other factories this (t : ParamsType) :
  Forall (fun g => type g <> t) factories ->
  registerFactories factories this !! t = this !! t.
Proof.
  intros Hall. revert this.
  induction Hall as [|g factories Hg _ IH]; intros this; [reflexivity|].
  unfold registerFactories in *. simpl. rewrite IH.
  apply lookup_insert_ne. exact Hg.
Qed.

(** The entry of a tag is the last factory registered with it. *)
Lemma registerFactories_last factories1 f factories2 this :
  Forall (fun g => type g <> type f) factories2 ->
  registerFactories (factories1 ++ f :: factories2) this !! type f = Some f.
Proof.
  intros Hall. rewrite registerFactories_app.
  change (registerFactories (f :: factories2) ?m)
    with (registerFactories factories2 (<[type f := f]> m)).
  rewrite (@registerFactories_other factories2 _ (type f) Hall). apply lookup_insert_eq.
Qed.

(** C8. For a factory registered in the constructor and not followed by another
    of the same type tag, [component], applied to props whose data carries
    that tag, returns what the factory's [create] returns on the data without
    its [type] field, together with the change methods as they came. *)
Theorem component_dispatches factories1 f factories2
    (props : ComponentProps (ParamsType:=ParamsType) Params ChangeMethods) :
  Forall (fun g => type g <> type f) factories2 ->
  param_type (data props) = type f ->
  component (constructor (factories1 ++ f :: factories2)) props
  = Some (create f {| create_data := params (data props);
                      create_methods := methods props |}).
Proof.
  intros Hall Htag. unfold component, constructor.
  rewrite Htag, (@registerFactories_last factories1 f factories2 ∅ Hall). reflexivity.
Qed.

End Dispatch.

Section Scroll.

Import JenericComponent.

Variables Err Callback : Type.

(** C9. A run of the scroll handler invokes the pagination callback exactly
    when the pagination loading flag is not set, the callback is given, both
    refs hold an element, and the content's [scrollHeight] minus the scroll
    container's [scrollTop] plus [clientHeight] is at most 35; it invokes
    nothing else. *)
Theorem scrollHandler_near_bottom (p : Captured Err Callback) (callback : Callback) :
  (scrollHandler p = [callback] <->
     (forall l, loadingState p = Some l -> loading l = false)
     /\ onPagination p = Some callback
     /\ exists inner outer,
          element_of (contentRef p) = Some inner
          /\ element_of (scrollContainer p) = Some outer
          /\ scrollHeight inner - (scrollTop outer + clientHeight outer) <= 35)
  /\ (scrollHandler p = [] \/ exists c, onPagination p = Some c /\ scrollHandler p = [c]).
Proof.
  unfold scrollHandler.
  destruct (loadingState p) as [[[] e]|]; simpl;
    destruct (onPagination p) as [c|];
    destruct (element_of (contentRef p)) as [inner|];
    destruct (element_of (scrollContainer p)) as [outer|];
    try (destruct (Z.leb_spec (scrollHeight inner - (scrollTop outer + clientHeight outer)) 35));
    (split; [split|]);
    try (intros Hq; discriminate Hq);
    try (intros (Hl & Hc & inner' & outer' & Hi & Ho & Hle));
    try discriminate;
    try (specialize (Hl _ eq_refl); discriminate Hl);
    try (injection Hi as <-; injection Ho as <-; lia);
    try (injection Hc as ->; reflexivity);
    try (left; reflexivity);
    try (right; exists c; split; reflexivity);
    try (intros Hq; injection Hq as ->; split;
         [intros l Hl; first [discriminate Hl | injection Hl as <-; reflexivity]
         | split; [reflexivity | exists inner, outer; auto]]).
Qed.

End Scroll.

(** C8 at an example: of two factories registered for ["color"], the later one
    renders the field. *)
Lemma component_dispatches_example :
  CompoFactory.component
    (CompoFactory.constructor
       [DispatchExamples.plain_color; DispatchExamples.color; DispatchExamples.text])
    DispatchExamples.props
  = Some "swatch"%string.
Proof.
  apply (@component_dispatches string _ _ Z string unit
           [DispatchExamples.plain_color] DispatchExamples.color [DispatchExamples.text]
           DispatchExamples.props).
  - repeat constructor. simpl. discriminate.
  - reflexivity.
Defined.

(** C9 at an example: 900 - (480 + 400) = 20, so the callback runs. *)
Lemma scrollHandler_example :
  JenericComponent.scrollHandler ScrollExamples.near_bottom = [tt].
Proof. reflexivity. Qed.

(** ** The model at work *)

(** Removing item 5: the list shrinks, the count drops and a page is asked for;
    when that page arrives it is appended, unselected. *)
Example remove_then_page :
  let o := Examples.serving Examples.page in
  let removed := settle o (remove (Some 5) Examples.three_of_twelve) in
  map id (content (now removed)) = [6; 7]
  /\ totalCount (now removed) = 11
  /\ removedElements (now removed) = Some [Examples.item 5 "a" false]
  /\ match forked removed with
     | [t] => content (now (resume t o (now removed)))
              = [Examples.item 6 "b" false; Examples.item 7 "c" false;
                 Examples.item 8 "d" false]
     | _ => False
     end.
Proof. cbv zeta. repeat split. Qed.

(** Renaming item 5 to ["z"] under a descending sort by name moves it to the
    front; renaming it under an ascending sort moves it to the end, where it
    is cut off and the cursor steps back. *)
Example rename_resorts :
  let o := Examples.serving Examples.page in
  let up := setSort {[ "name"%string := 1 ]} Examples.three_of_twelve in
  map id (sortContent (strings:=ascii_strings) Examples.three_of_twelve
            (content (renameContent 5 "z" Examples.three_of_twelve)) f_name "name")
    = [5; 7; 6]
  /\ map id (content (now (settle o (rename (strings:=ascii_strings) 5 "z" up)))) = [6; 7]
  /\ nextId (now (settle o (rename (strings:=ascii_strings) 5 "z" up))) = 2.
Proof. cbv zeta. repeat split. Qed.

(** * Further properties of the code *)

From Stdlib Require Import Permutation Sorted OrdersEx.
Import FileSystemLogic.

Section Pages.

Variable Err : Type.
Implicit Types (s : State Err) (o : Oracle Err) (l : list Content).

Lemma count_flag_app b l1 l2 :
  count_flag b (l1 ++ l2) = (count_flag b l1 + count_flag b l2)%nat.
Proof. induction l1 as [|x l1 IH]; simpl; [reflexivity | rewrite IH; lia]. Qed.

Lemma count_flag_convert b s (d : list ContentStructure) :
  count_flag b (convert s d) = if Bool.eqb (selectedAll s) b then length d else O.
Proof.
  induction d as [|x d IH]; [destruct (Bool.eqb _ _); reflexivity|].
  change (convert s (x :: d))
    with ({| id := cs_id x; name := cs_name x; selected := selectedAll s |} :: convert s d).
  cbn [count_flag selected]. rewrite IH. destruct (Bool.eqb _ _); reflexivity.
Qed.

Lemma ids_flagged_convert b s (d : list ContentStructure) :
  ids_flagged b (convert s d) = if Bool.eqb (selectedAll s) b then map cs_id d else [].
Proof.
  induction d as [|x d IH]; [destruct (Bool.eqb _ _); reflexivity|].
  change (convert s (x :: d))
    with ({| id := cs_id x; name := cs_name x; selected := selectedAll s |} :: convert s d).
  cbn [ids_flagged selected id]. rewrite IH. destruct (Bool.eqb _ _); reflexivity.
Qed.

(** [selectedCount] through the two counts, whatever the list holds. *)
Lemma selectedCount_counts s :
  selectedCount s =
    if selectedAll s
    then totalCount s - Z.of_nat (count_flag false (content s))
    else Z.of_nat (count_flag true (content s)).
Proof.
  unfold selectedCount. destruct (selectedAll s).
  - rewrite filter_unselected_length. reflexivity.
  - destruct (content s) as [|x l]; [reflexivity|].
    change (0 <? length (x :: l))%nat with true. cbv iota.
    rewrite filter_selected_length. reflexivity.
Qed.

(** What the continuation of [paginationRequest] leaves in the store. *)
Lemma paginationRequest_resume s s2 o :
  now (resume (self (paginationRequest s)) o s2) =
    match o requestContentData with
    | Resolved response =>
        changePaginationState settled_ok
          match data response with
          | Some d => updateContent (convert s2 d) (setNextId (next_id response) s2)
          | None => s2
          end
    | Rejected e => changePaginationState (settled_error e) s2
    end.
Proof.
  unfold paginationRequest, resume. simpl.
  destruct (o requestContentData) as [response|e]; [|reflexivity].
  destruct (data response); reflexivity.
Qed.

(** X1. A further page never changes the selected count: the items it brings
    carry the select-all flag as their selected flag. *)
Theorem page_keeps_selectedCount s s2 o :
  selectedCount (now (resume (self (paginationRequest s)) o s2)) = selectedCount s2
  /\ selectedCount (now (resume (self (pagination s)) o s2)) = selectedCount s2
  /\ selectedAll (now (resume (self (pagination s)) o s2)) = selectedAll s2
  /\ totalCount (now (resume (self (pagination s)) o s2)) = totalCount s2.
Proof.
  assert (H : selectedCount (now (resume (self (paginationRequest s)) o s2)) = selectedCount s2
              /\ selectedAll (now (resume (self (paginationRequest s)) o s2)) = selectedAll s2
              /\ totalCount (now (resume (self (paginationRequest s)) o s2)) = totalCount s2).
  { rewrite paginationRequest_resume, !selectedCount_counts.
    destruct (o requestContentData) as [response|e]; [|auto].
    destruct (data response) as [d|]; [|auto]. simpl.
    rewrite !count_flag_app.
    change (convert (setNextId (next_id response) s2) d) with (convert s2 d).
    rewrite !count_flag_convert.
    destruct (selectedAll s2); simpl; repeat split; lia. }
  destruct H as (H1 & H2 & H3).
  split; [exact H1|].
  unfold pagination. destruct (_ && _); auto.
Qed.

(** X2. A page is appended: the items already loaded stay where they are, the
    new ones follow in the order of the response with the select-all flag as
    their selected flag; a response without [data] leaves list and cursor. *)
Theorem page_is_appended s s2 o response :
  o requestContentData = Resolved response ->
  let fin := now (resume (self (paginationRequest s)) o s2) in
  match data response with
  | Some d =>
      content fin = content s2 ++ convert s2 d
      /\ map id (content fin) = map id (content s2) ++ map cs_id d
      /\ Forall (fun x => selected x = selectedAll s2) (convert s2 d)
      /\ getContentLength fin = (getContentLength s2 + length d)%nat
  | None => content fin = content s2 /\ nextId fin = nextId s2
  end
  /\ totalCount fin = totalCount s2
  /\ paginationState fin = {| loading := false; error := None |}.
Proof.
  intros Ho fin. subst fin. rewrite paginationRequest_resume, Ho.
  destruct (data response) as [d|]; simpl; [|auto].
  split; [|auto]. split; [reflexivity|].
  split; [rewrite map_app; f_equal; unfold convert; rewrite map_map; reflexivity|].
  split.
  - unfold convert. apply List.Forall_forall. intros x Hx.
    apply in_map_iff in Hx. destruct Hx as (y & <- & _). reflexivity.
  - unfold getContentLength. simpl. rewrite length_app. unfold convert.
    rewrite length_map. reflexivity.
Qed.

(** X3. The content request replaces the list and with it every item's own
    selection: each loaded item has the select-all flag as its selected flag,
    so the selected count is [total_count] under "select all" and 0 without. *)
Theorem content_request_resets_items s s2 o response d :
  o requestContentData = Resolved response ->
  data response = Some d ->
  let fin := now (resume (self (contentRequest s)) o s2) in
  map id (content fin) = map cs_id d
  /\ map name (content fin) = map cs_name d
  /\ Forall (fun x => selected x = selectedAll s2) (content fin)
  /\ selectedAll fin = selectedAll s2
  /\ totalCount fin = total_count response
  /\ selectedCount fin = (if selectedAll s2 then total_count response else 0)
  /\ getSelectedIds fin = [].
Proof.
  intros Ho Hd fin. subst fin. unfold contentRequest, resume. simpl.
  rewrite Ho, Hd. simpl.
  change (convert (setNextId _ (setTotalCount _ s2)) d) with (convert s2 d).
  assert (Hall : Forall (fun x => selected x = selectedAll s2) (convert s2 d)).
  { unfold convert. apply List.Forall_forall. intros x Hx.
    apply in_map_iff in Hx. destruct Hx as (y & <- & _). reflexivity. }
  split; [unfold convert; rewrite map_map; reflexivity|].
  split; [unfold convert; rewrite map_map; reflexivity|].
  split; [exact Hall|]. split; [reflexivity|]. split; [reflexivity|].
  split.
  - rewrite selectedCount_counts. simpl. rewrite !count_flag_convert.
    destruct (selectedAll s2); simpl; lia.
  - unfold getSelectedIds, getAllUnselectedIds, getAllSelectedIds. simpl.
    rewrite filter_unselected_ids, filter_selected_ids.
    rewrite !ids_flagged_convert. destruct (selectedAll s2); reflexivity.
Qed.

End Pages.

Section Marks.

Variable Err : Type.
Implicit Types (s : State Err) (l : list Content) (f : Content -> Content).

Lemma alter_first_cons f i x l :
  alter_first f i (x :: l) = if id x =? i then f x :: l else x :: alter_first f i l.
Proof.
  unfold alter_first. simpl. destruct (id x =? i); [reflexivity|].
  destruct (findIndex _ l); reflexivity.
Qed.

Lemma onToggleSelected_content i b s :
  content (onToggleSelected i b s) = alter_first (with_selected b) i (content s).
Proof. unfold onToggleSelected, alter_first. destruct (findIndex _ _); reflexivity. Qed.

Lemma renameContent_content i n s :
  content (renameContent i n s) = alter_first (with_name n) i (content s).
Proof. unfold renameContent, alter_first. destruct (findIndex _ _); reflexivity. Qed.

Lemma find_alter_first f i j l :
  (forall x, id (f x) = id x) ->
  List.find (fun item => id item =? j) (alter_first f i l) =
    if i =? j then f <$> List.find (fun item => id item =? j) l
    else List.find (fun item => id item =? j) l.
Proof.
  intros Hf. induction l as [|x l IH]; [destruct (i =? j); reflexivity|].
  rewrite alter_first_cons.
  destruct (id x =? i) eqn:Exi.
  - apply Z.eqb_eq in Exi. simpl. rewrite Hf, Exi.
    destruct (i =? j); reflexivity.
  - simpl. rewrite IH. destruct (i =? j) eqn:Eij; [|reflexivity].
    apply Z.eqb_eq in Eij. subst j. rewrite Exi. reflexivity.
Qed.

Lemma map_alter_first {B : Type} (g : Content -> B) f i l :
  (forall x, g (f x) = g x) -> map g (alter_first f i l) = map g l.
Proof.
  intros Hf. induction l as [|x l IH]; [reflexivity|].
  rewrite alter_first_cons. destruct (id x =? i); simpl; [rewrite Hf | rewrite IH]; reflexivity.
Qed.

Lemma count_flag_toggle b c i l :
  Z.of_nat (count_flag c (alter_first (with_selected b) i l)) =
    match List.find (fun item => id item =? i) l with
    | Some x => Z.of_nat (count_flag c l)
                + Z.b2z (Bool.eqb b c) - Z.b2z (Bool.eqb (selected x) c)
    | None => Z.of_nat (count_flag c l)
    end.
Proof.
  induction l as [|x l IH]; [reflexivity|].
  rewrite alter_first_cons. simpl. destruct (id x =? i).
  - simpl. destruct (Bool.eqb b c), (Bool.eqb (selected x) c); simpl; lia.
  - simpl. rewrite Nat2Z.inj_add, IH.
    destruct (List.find _ l); rewrite Nat2Z.inj_add; lia.
Qed.

(** X4. [onToggleSelected] and [getAlone] round trip. The item found under the
    id afterwards is the one found before with its flag set; items found under
    other ids, the order of ids and names, and every other field are as
    before; an id that is not loaded changes nothing. *)
Theorem toggle_then_lookup i j b s :
  getAlone i (onToggleSelected i b s) = with_selected b <$> getAlone i s
  /\ (j <> i -> getAlone j (onToggleSelected i b s) = getAlone j s)
  /\ map id (content (onToggleSelected i b s)) = map id (content s)
  /\ map name (content (onToggleSelected i b s)) = map name (content s)
  /\ (getAlone i s = None -> onToggleSelected i b s = s)
  /\ totalCount (onToggleSelected i b s) = totalCount s
  /\ selectedAll (onToggleSelected i b s) = selectedAll s
  /\ nextId (onToggleSelected i b s) = nextId s.
Proof.
  unfold getAlone. rewrite onToggleSelected_content.
  split; [rewrite find_alter_first, Z.eqb_refl; reflexivity|].
  split.
  { intros Hne. rewrite find_alter_first by reflexivity.
    destruct (Z.eqb_spec i j); [congruence | reflexivity]. }
  split; [apply map_alter_first; reflexivity|].
  split; [apply map_alter_first; reflexivity|].
  split.
  { unfold onToggleSelected. intros Hnone.
    destruct (findIndex _ (content s)) as [index|] eqn:Ei; [|reflexivity].
    exfalso. revert index Ei. induction (content s) as [|x l IH]; [discriminate|].
    simpl in *. destruct (id x =? i); [discriminate Hnone|].
    intros index. destruct (findIndex _ l); [|discriminate]. eauto. }
  unfold onToggleSelected. destruct (findIndex _ _); auto.
Qed.

(** X5. In both selection modes the selected count follows a toggle by exactly
    the change of the item's flag. *)
Theorem toggle_moves_selectedCount i b s :
  selectedCount (onToggleSelected i b s) =
    match getAlone i s with
    | Some x => selectedCount s + Z.b2z b - Z.b2z (selected x)
    | None => selectedCount s
    end.
Proof.
  rewrite !selectedCount_counts.
  replace (selectedAll (onToggleSelected i b s)) with (selectedAll s)
    by (unfold onToggleSelected; destruct (findIndex _ _); reflexivity).
  replace (totalCount (onToggleSelected i b s)) with (totalCount s)
    by (unfold onToggleSelected; destruct (findIndex _ _); reflexivity).
  rewrite onToggleSelected_content, !count_flag_toggle. unfold getAlone.
  destruct (List.find _ (content s)) as [x|]; [|reflexivity].
  destruct (selectedAll s), b, (selected x); simpl; lia.
Qed.

Lemma count_flag_marked b c l :
  count_flag c (map (with_selected b) l) = if Bool.eqb b c then length l else O.
Proof.
  induction l as [|x l IH]; simpl; [destruct (Bool.eqb b c); reflexivity|].
  rewrite IH. destruct (Bool.eqb b c); reflexivity.
Qed.

Lemma ids_flagged_marked b c l :
  ids_flagged c (map (with_selected b) l) = if Bool.eqb b c then map id l else [].
Proof.
  induction l as [|x l IH]; simpl; [destruct (Bool.eqb b c); reflexivity|].
  rewrite IH. destruct (Bool.eqb b c); reflexivity.
Qed.

(** X6. [toggleSelectedAll] leaves no exception: the list of selected ids is
    empty in both modes, the selected count is [totalCount] after selecting
    all and 0 after clearing, and [isSelectAll] holds exactly after selecting
    all of a non-empty list. *)
Theorem toggleSelectedAll_is_uniform b s :
  getSelectedIds (toggleSelectedAll b s) = []
  /\ selectedCount (toggleSelectedAll b s) = (if b then totalCount s else 0)
  /\ isSelectAll (toggleSelectedAll b s) = b && (0 <? length (content s))%nat
  /\ Forall (fun x => selected x = b) (content (toggleSelectedAll b s))
  /\ map id (content (toggleSelectedAll b s)) = map id (content s).
Proof.
  pose proof (fun c => count_flag_marked b c (content s)) as Hc.
  pose proof (fun c => ids_flagged_marked b c (content s)) as Hi.
  split.
  { unfold getSelectedIds, getAllUnselectedIds, getAllSelectedIds. simpl.
    rewrite filter_unselected_ids, filter_selected_ids, !Hi. destruct b; reflexivity. }
  split.
  { rewrite selectedCount_counts. simpl. rewrite !Hc. destruct b; simpl; lia. }
  split.
  { clear Hc Hi. unfold isSelectAll. simpl. rewrite length_map.
    assert (Ha : forallb (fun item => selected item) (map (with_selected b) (content s))
                 = b || match content s with [] => true | _ => false end).
    { induction (content s) as [|x l IH]; [destruct b; reflexivity|].
      simpl. rewrite IH. destruct b; reflexivity. }
    rewrite Ha. destruct (content s) as [|x l]; destruct b; simpl;
      rewrite ?andb_false_r; reflexivity. }
  split.
  { clear Hc Hi. simpl. induction (content s) as [|x l IH]; simpl; [constructor|].
    constructor; [reflexivity | exact IH]. }
  simpl. rewrite map_map. reflexivity.
Qed.

(** X7. When [isSelectAll] holds the two other getters agree with it: under the
    select-all flag the count is [totalCount] and the list of exceptions is
    empty; without the flag everything is loaded, the count is the length of
    the list and every id is listed. *)
Theorem isSelectAll_meaning s :
  isSelectAll s = true ->
  content s <> []
  /\ Forall (fun x => selected x = true) (content s)
  /\ (if selectedAll s
      then selectedCount s = totalCount s /\ getSelectedIds s = []
      else selectedCount s = Z.of_nat (length (content s))
           /\ totalCount s <= Z.of_nat (length (content s))
           /\ getSelectedIds s = map id (content s)).
Proof.
  unfold isSelectAll. intros H.
  assert (Hall : (0 <? length (content s))%nat
                 && forallb (fun item => selected item) (content s) = true).
  { destruct ((0 <? length (content s))%nat && forallb _ _); [reflexivity|].
    rewrite !andb_false_r in H. discriminate H. }
  apply andb_true_iff in Hall. destruct Hall as [Hne Hall].
  rewrite Hne, Hall, !andb_true_r in H.
  assert (HF : Forall (fun x => selected x = true) (content s)).
  { apply List.Forall_forall. intros x Hx.
    rewrite forallb_forall in Hall. exact (Hall x Hx). }
  assert (Hc : count_flag false (content s) = O /\ count_flag true (content s) = length (content s)
               /\ ids_flagged false (content s) = []
               /\ ids_flagged true (content s) = map id (content s)).
  { clear -HF. induction HF as [|x l Hx _ IH]; [auto|].
    simpl. rewrite Hx. simpl. destruct IH as (-> & -> & -> & ->). auto. }
  destruct Hc as (Hc0 & Hc1 & Hi0 & Hi1).
  split; [intros E; rewrite E in Hne; discriminate Hne|].
  split; [exact HF|].
  rewrite selectedCount_counts.
  unfold getSelectedIds, getAllUnselectedIds, getAllSelectedIds.
  rewrite filter_unselected_ids, filter_selected_ids, Hc0, Hc1, Hi0, Hi1.
  destruct (selectedAll s); simpl in H.
  - split; [lia | reflexivity].
  - apply Z.leb_le in H. auto.
Qed.

(** X8. [renameContent] and [getAlone] round trip. *)
Theorem rename_then_lookup i j n s :
  getAlone i (renameContent i n s) = with_name n <$> getAlone i s
  /\ (j <> i -> getAlone j (renameContent i n s) = getAlone j s)
  /\ map id (content (renameContent i n s)) = map id (content s)
  /\ map selected (content (renameContent i n s)) = map selected (content s)
  /\ selectedCount (renameContent i n s) = selectedCount s.
Proof.
  unfold getAlone. rewrite renameContent_content.
  split; [rewrite find_alter_first, Z.eqb_refl; reflexivity|].
  split.
  { intros Hne. rewrite find_alter_first by reflexivity.
    destruct (Z.eqb_spec i j); [congruence | reflexivity]. }
  split; [apply map_alter_first; reflexivity|].
  assert (Hs : map selected (alter_first (with_name n) i (content s)) = map selected (content s))
    by (apply map_alter_first; reflexivity).
  split; [exact Hs|].
  rewrite !selectedCount_counts. rewrite renameContent_content.
  replace (selectedAll (renameContent i n s)) with (selectedAll s)
    by (unfold renameContent; destruct (findIndex _ _); reflexivity).
  replace (totalCount (renameContent i n s)) with (totalCount s)
    by (unfold renameContent; destruct (findIndex _ _); reflexivity).
  assert (Hcount : forall c l l', map selected l = map selected l' ->
                     count_flag c l = count_flag c l').
  { intros c l. induction l as [|x l IH]; intros [|y l'] E; try discriminate E; [reflexivity|].
    simpl in E. injection E as E1 E2. simpl. rewrite E1, (IH l' E2). reflexivity. }
  rewrite !(Hcount _ _ _ Hs). reflexivity.
Qed.

End Marks.

Section Sorting.

Variable Err : Type.
Context {strings : JsString}.
Implicit Types (s : State Err) (l : list Content).

Lemma sort_insert_perm {A : Type} (cmp : A -> A -> Z) (x : A) (l : list A) :
  Permutation (sort_insert cmp x l) (x :: l).
Proof.
  induction l as [|y l IH]; simpl; [reflexivity|].
  destruct (cmp x y <=? 0); [reflexivity|].
  rewrite IH. apply perm_swap.
Qed.

Lemma array_sort_perm {A : Type} (cmp : A -> A -> Z) (l : list A) :
  Permutation (array_sort cmp l) l.
Proof.
  induction l as [|x l IH]; simpl; [reflexivity|].
  rewrite sort_insert_perm. apply perm_skip. exact IH.
Qed.

Lemma ltb_asym (x y : string) : String.ltb x y = true -> String.ltb y x = false.
Proof.
  unfold String.ltb. rewrite (String.compare_antisym y x).
  destruct (String.compare x y); simpl; congruence.
Qed.

Lemma lt_prop_asym (a b : PropValue) :
  strict_order string_lt -> lt_prop a b = true -> lt_prop b a = false.
Proof.
  intros [Hasym _]. destruct a as [m|x|x], b as [n|y|y]; simpl; try reflexivity.
  - intros H. apply Z.ltb_lt in H. apply Z.ltb_ge. lia.
  - apply Hasym.
  - destruct x, y; simpl; congruence.
Qed.

Lemma asc_decides field : strict_order string_lt -> decides (asc field).
Proof.
  intros Hlt a b. unfold asc.
  destruct (lt_prop (checkProp (get b field)) (checkProp (get a field))) eqn:E1.
  - intros _. rewrite (lt_prop_asym _ _ Hlt E1). lia.
  - destruct (lt_prop (checkProp (get a field)) (checkProp (get b field))); lia.
Qed.

Lemma desc_decides field : strict_order string_lt -> decides (desc field).
Proof.
  intros Hlt a b. unfold desc.
  destruct (lt_prop (checkProp (get a field)) (checkProp (get b field))) eqn:E1.
  - intros _. rewrite (lt_prop_asym _ _ Hlt E1). lia.
  - destruct (lt_prop (checkProp (get b field)) (checkProp (get a field))); lia.
Qed.

Lemma ltb_trans_neg (x y z : string) :
  String.ltb y x = false -> String.ltb z y = false -> String.ltb z x = false.
Proof.
  unfold String.ltb. intros Hyx Hzy.
  destruct (String.compare z x) eqn:Ezx; try reflexivity.
  destruct (String.compare z y) eqn:Ezy; try discriminate Hzy.
  - apply String.compare_eq_iff in Ezy. subst z. rewrite Ezx in Hyx. discriminate Hyx.
  - destruct (String.compare y x) eqn:Eyx; try discriminate Hyx.
    + apply String.compare_eq_iff in Eyx. subst y. congruence.
    + rewrite String.compare_antisym in Ezy, Eyx.
      destruct (String.compare y z) eqn:Eyz; try discriminate Ezy.
      destruct (String.compare x y) eqn:Exy; try discriminate Eyx.
      assert (Hxz : String_as_OT.lt x z)
        by (transitivity y; [exact Exy | exact Eyz]).
      unfold String_as_OT.lt in Hxz.
      rewrite String.compare_antisym in Ezx.
      change (String_as_OT.compare x z) with (String.compare x z) in Hxz.
      rewrite Hxz in Ezx. discriminate Ezx.
Qed.

(** The comparison of ASCII strings by bytes is such an order. *)
Lemma ascii_strict_order : strict_order (string_lt (JsString:=ascii_strings)).
Proof. split; [exact ltb_asym | exact ltb_trans_neg]. Qed.

(** On the values of one field, "not less" is transitive. *)
Lemma not_lt_trans field (a b c : Content) :
  strict_order string_lt ->
  lt_prop (checkProp (get b field)) (checkProp (get a field)) = false ->
  lt_prop (checkProp (get c field)) (checkProp (get b field)) = false ->
  lt_prop (checkProp (get c field)) (checkProp (get a field)) = false.
Proof.
  intros [_ Htrans]. destruct field; simpl.
  - rewrite !Z.ltb_ge. lia.
  - apply Htrans.
  - destruct (selected a), (selected b), (selected c); simpl; congruence.
Qed.

Lemma sort_insert_strongly {A : Type} (cmp : A -> A -> Z) (x : A) (l : list A) :
  decides cmp ->
  (forall a b c, cmp a b <= 0 -> cmp b c <= 0 -> cmp a c <= 0) ->
  StronglySorted (fun a b => cmp a b <= 0) l ->
  StronglySorted (fun a b => cmp a b <= 0) (sort_insert cmp x l).
Proof.
  intros Hd Ht Hs. induction Hs as [|y l Hs IH Hall]; simpl; [repeat constructor|].
  destruct (Z.leb_spec (cmp x y) 0) as [Hle|Hgt].
  - constructor; [constructor; assumption|].
    constructor; [exact Hle|].
    eapply List.Forall_impl; [|exact Hall]. intros z Hz. exact (Ht _ _ _ Hle Hz).
  - constructor; [exact IH|].
    apply List.Forall_forall. intros z Hz.
    apply (Permutation_in _ (sort_insert_perm cmp x l)) in Hz.
    destruct Hz as [<- | Hz]; [apply Hd; exact Hgt|].
    rewrite List.Forall_forall in Hall. exact (Hall z Hz).
Qed.

Lemma array_sort_strongly {A : Type} (cmp : A -> A -> Z) (l : list A) :
  decides cmp ->
  (forall a b c, cmp a b <= 0 -> cmp b c <= 0 -> cmp a c <= 0) ->
  StronglySorted (fun a b => cmp a b <= 0) (array_sort cmp l).
Proof.
  intros Hd Ht. induction l as [|x l IH]; simpl; [constructor|].
  apply sort_insert_strongly; assumption.
Qed.

Lemma StronglySorted_weaken {A : Type} (R R' : A -> A -> Prop) (l : list A) :
  (forall a b, R a b -> R' a b) -> StronglySorted R l -> StronglySorted R' l.
Proof.
  intros HR Hs. induction Hs as [|x l Hs IH Hall]; constructor; [exact IH|].
  eapply List.Forall_impl; [|exact Hall]. intros z. apply HR.
Qed.

Lemma asc_le field (a b : Content) :
  asc field a b <= 0 <-> lt_prop (checkProp (get b field)) (checkProp (get a field)) = false.
Proof.
  unfold asc. destruct (lt_prop (checkProp (get b field)) (checkProp (get a field))).
  - split; [lia | discriminate].
  - split; [reflexivity|]. intros _. destruct (lt_prop _ _); lia.
Qed.

Lemma desc_le field (a b : Content) :
  desc field a b <= 0 <-> lt_prop (checkProp (get a field)) (checkProp (get b field)) = false.
Proof.
  unfold desc. destruct (lt_prop (checkProp (get a field)) (checkProp (get b field))).
  - split; [lia | discriminate].
  - split; [reflexivity|]. intros _. destruct (lt_prop _ _); lia.
Qed.

(** X9. The comparison of strings being a strict order, [sortContent] returns
    the same items, sorted: with the entry 1 of [sort] no item is less than an
    earlier one (ascending), with any other entry or none no item is less than
    a later one (descending); strings are compared after [toLowerCase]. *)
Theorem sortContent_sorts s l field sorting :
  strict_order string_lt ->
  Permutation (sortContent s l field sorting) l
  /\ length (sortContent s l field sorting) = length l
  /\ StronglySorted
       (fun a b =>
          if bool_decide (sort s !! sorting = Some 1)
          then lt_prop (checkProp (get b field)) (checkProp (get a field)) = false
          else lt_prop (checkProp (get a field)) (checkProp (get b field)) = false)
       (sortContent s l field sorting).
Proof.
  intros Hlt. unfold sortContent.
  split; [apply array_sort_perm|].
  split; [apply Permutation_length, array_sort_perm|].
  destruct (bool_decide (sort s !! sorting = Some 1)).
  - eapply StronglySorted_weaken; [intros a b; apply asc_le|].
    apply array_sort_strongly; [apply asc_decides; exact Hlt|].
    intros a b c. rewrite !asc_le. apply not_lt_trans. exact Hlt.
  - eapply StronglySorted_weaken; [intros a b; apply desc_le|].
    apply array_sort_strongly; [apply desc_decides; exact Hlt|].
    intros a b c. rewrite !desc_le. intros H1 H2. exact (not_lt_trans field c b a Hlt H2 H1).
Qed.

End Sorting.

Section Renaming.

Variable Err : Type.
Context {strings : JsString}.
Implicit Types (s : State Err) (o : Oracle Err) (l : list Content).

Lemma removelast_slice_last {A : Type} (l : list A) :
  l = removelast l ++ slice_last l.
Proof.
  unfold slice_last. induction l as [|x l IH]; [reflexivity|].
  destruct l as [|y l]; [reflexivity|].
  change (removelast (x :: y :: l)) with (x :: removelast (y :: l)).
  change (last (x :: y :: l)) with (last (y :: l)).
  change (x :: y :: l = x :: (removelast (y :: l) ++ option_list (last (y :: l)))).
  f_equal. exact IH.
Qed.

(** What the continuation of [rename] leaves in the store after a success. *)
Lemma rename_resume (k : Z) n s s2 o :
  is_resolved (o (requestContentRename k n)) = true ->
  resume (self (rename k n s)) o s2
  = finished (changeActionState settled_ok (rename_sorted k (renameContent k n s2))).
Proof.
  unfold rename, resume. simpl. destruct (o _); [reflexivity | discriminate].
Qed.

(** X10. A successful [rename] loses no item. Either the list keeps its order
    with the one name changed, or it is re-sorted by name and its last item,
    which is then the renamed one, moves to [removedElements] while the cursor
    steps back by one; this happens only under a sort by name with more to
    load. The total count and the selection are never touched. *)
Theorem rename_keeps_items (k : Z) n s s2 o :
  is_resolved (o (requestContentRename k n)) = true ->
  let renamed := renameContent k n s2 in
  let fin := now (resume (self (rename k n s)) o s2) in
  totalCount fin = totalCount s2
  /\ selectedAll fin = selectedAll s2
  /\ actionState fin = {| loading := false; error := None |}
  /\ ((content fin = content renamed /\ nextId fin = nextId s2
       /\ removedElements fin = removedElements s2)
      \/ (exists x, id x = k
            /\ removedElements fin = Some [x]
            /\ Permutation (content fin ++ [x]) (content renamed)
            /\ content fin ++ [x] = sortContent s2 (content renamed) f_name "name"
            /\ nextId fin = nextId s2 - 1
            /\ nextId s2 < totalCount s2
            /\ is_Some (sort s2 !! "name"%string))).
Proof.
  intros Ho renamed fin. subst renamed fin. rewrite (@rename_resume k n s s2 o Ho). simpl.
  assert (Hr : totalCount (renameContent k n s2) = totalCount s2
               /\ selectedAll (renameContent k n s2) = selectedAll s2
               /\ nextId (renameContent k n s2) = nextId s2
               /\ removedElements (renameContent k n s2) = removedElements s2
               /\ sort (renameContent k n s2) = sort s2).
  { unfold renameContent. destruct (findIndex _ _); simpl; auto. }
  destruct Hr as (Ht & Ha & Hn & Hrm & Hso).
  set (r := renameContent k n s2) in *.
  unfold rename_sorted.
  assert (Hkept :
    totalCount r = totalCount s2 /\ selectedAll r = selectedAll s2
    /\ spread (actionState r) settled_ok = {| loading := false; error := None |}
    /\ ((content r = content r /\ nextId r = nextId s2
         /\ removedElements r = removedElements s2)
        \/ (exists x, id x = k
              /\ removedElements r = Some [x]
              /\ Permutation (content r ++ [x]) (content r)
              /\ content r ++ [x] = sortContent s2 (content r) f_name "name"
              /\ nextId r = nextId s2 - 1
              /\ nextId s2 < totalCount s2
              /\ is_Some (sort s2 !! "name"%string)))) by (repeat split; auto).
  destruct (bool_decide (is_Some (sort r !! "name"%string))) eqn:Hname;
    [|simpl; exact Hkept].
  apply bool_decide_eq_true in Hname.
  set (sorted := sortContent r (content r) f_name "name").
  pose proof (removelast_slice_last sorted) as Hsplit.
  destruct (slice_last sorted) as [|x rest] eqn:Hlast;
    [rewrite andb_false_r; simpl; exact Hkept|].
  assert (Hrest : rest = []).
  { unfold slice_last in Hlast. destruct (last sorted); simpl in Hlast;
      [injection Hlast as _ <-; reflexivity | discriminate]. }
  subst rest.
  destruct ((1 <? length sorted)%nat && (id x =? k) && (nextId r <? totalCount r)) eqn:Hcut;
    [|simpl; exact Hkept].
  apply andb_true_iff in Hcut. destruct Hcut as [Hcut Hmore].
  apply andb_true_iff in Hcut. destruct Hcut as [_ Hid].
  apply Z.eqb_eq in Hid. apply Z.ltb_lt in Hmore.
  simpl. rewrite Ht, Ha, Hn.
  split; [reflexivity|]. split; [reflexivity|]. split; [reflexivity|].
  right. exists x.
  split; [exact Hid|]. split; [reflexivity|].
  assert (Hsame : sortContent r (content r) f_name "name"
                  = sortContent s2 (content r) f_name "name").
  { unfold sortContent. rewrite Hso. reflexivity. }
  split; [rewrite <- Hsplit; apply array_sort_perm|].
  split; [rewrite <- Hsplit; exact Hsame|].
  split; [reflexivity|]. split; [lia|]. rewrite <- Hso. exact Hname.
Qed.

(** X11. A request that fails changes nothing but its own loading state: after a
    rejected [rename], pagination request or content request the store is the
    one it resumed on, with [{ loading: false, error: e }] in the action,
    pagination or initial state. *)
Theorem failure_keeps_store (k : Z) n s s2 o (e : Err) :
  (forall c, o c = Rejected e) ->
  resume (self (rename k n s)) o s2
    = finished (changeActionState (settled_error e) s2)
  /\ resume (self (paginationRequest s)) o s2
     = finished (changePaginationState (settled_error e) s2)
  /\ resume (self (contentRequest s)) o s2
     = finished (changeState (settled_error e) s2)
  /\ actionState (changeActionState (settled_error e) s2)
     = {| loading := false; error := Some e |}
  /\ paginationState (changePaginationState (settled_error e) s2)
     = {| loading := false; error := Some e |}
  /\ state (changeState (settled_error e) s2) = {| loading := false; error := Some e |}.
Proof.
  intros Ho. unfold rename, paginationRequest, contentRequest, resume. simpl.
  rewrite !Ho. repeat split.
Qed.

(** X12. While a request is awaited its loading flag is set and the error of the
    previous attempt is still there; a success clears both. *)
Theorem loading_flag_lifecycle (k : Z) n s s2 o :
  (forall c, is_resolved (o c) = true) ->
  (actionState (now (rename k n s)) = {| loading := true; error := error (actionState s) |}
   /\ actionState (now (resume (self (rename k n s)) o s2))
      = {| loading := false; error := None |})
  /\ (paginationState (now (paginationRequest s))
      = {| loading := true; error := error (paginationState s) |}
      /\ paginationState (now (resume (self (paginationRequest s)) o s2))
         = {| loading := false; error := None |})
  /\ (state (now (contentRequest s)) = {| loading := true; error := error (state s) |}
      /\ state (now (resume (self (contentRequest s)) o s2))
         = {| loading := false; error := None |}).
Proof.
  intros Ho.
  split; [split; [reflexivity|]|split; (split; [reflexivity|])].
  - rewrite (@rename_resume k n s s2 o (Ho _)). reflexivity.
  - rewrite paginationRequest_resume. pose proof (Ho requestContentData) as H.
    destruct (o requestContentData) as [response|]; [|discriminate H].
    destruct (data response); reflexivity.
  - unfold contentRequest, resume. simpl. pose proof (Ho requestContentData) as H.
    destruct (o requestContentData) as [response|]; [|discriminate H].
    destruct (data response); reflexivity.
Qed.

(** X13. A failed change of sort is not rolled back: the list and the total
    count are the old ones, but the new sort is in place and the cursor is 0,
    so [pagination()] asks for nothing until a content request succeeds. *)
Theorem failed_sort_change order s o (e : Err) :
  o requestContentData = Rejected e ->
  let fin := now (settle o (onChangeSort order s)) in
  content fin = content s
  /\ totalCount fin = totalCount s
  /\ selectedAll fin = selectedAll s
  /\ sort fin = order
  /\ nextId fin = 0
  /\ state fin = {| loading := false; error := Some e |}
  /\ pagination fin = finished fin.
Proof.
  intros Ho fin. subst fin. unfold settle, onChangeSort, contentRequest, resume. simpl.
  rewrite Ho. simpl. repeat split.
Qed.

End Renaming.

Section Removal.

Variable Err : Type.
Implicit Types (s : State Err) (o : Oracle Err) (l : list Content) (i : option Z)
  (op : State Err -> Run Err).

(** [detach (pagination s)] touches the pagination state only. *)
Lemma detach_pagination s :
  fst (detach (pagination s)) = s
  \/ fst (detach (pagination s)) = changePaginationState in_flight s.
Proof. unfold detach, pagination. destruct (_ && _); simpl; auto. Qed.

(** The threads [removeContent] leaves behind: none, or the one pagination
    request. *)
Lemma removeContent_spawned i s :
  snd (removeContent i s) = []
  \/ exists s', snd (removeContent i s) = [self (paginationRequest s')].
Proof.
  unfold removeContent.
  destruct (bool_decide (is_Some i) || negb (selectedAll s)); [|left; reflexivity].
  unfold detach, pagination.
  destruct (_ && _); destruct (0 <? length _)%nat; simpl; eauto.
Qed.

(** The list, the count, the cursor and the removed items after
    [removeContent]. *)
Lemma removeContent_fields i s :
  let after := fst (removeContent i s) in
  nextId after = nextId s
  /\ sort after = sort s
  /\ selectedAll after = false
  /\ if bool_decide (is_Some i) || negb (selectedAll s) then
       content after
       = map (with_selected false)
           (List.filter (fun x => negb (includes (ids_to_remove i s) (id x))) (content s))
       /\ totalCount after = totalCount s - Z.of_nat (length (ids_to_remove i s))
       /\ removedElements after
          = match List.filter (fun x => includes (ids_to_remove i s) (id x)) (content s) with
            | [] => removedElements s
            | removed => Some removed
            end
     else
       content after
       = map (with_selected false)
           (List.filter (fun x => includes (getAllUnselectedIds s) (id x)) (content s))
       /\ totalCount after = Z.of_nat (length (content after))
       /\ removedElements after = removedElements s
       /\ snd (removeContent i s) = []
       /\ paginationState after = paginationState s.
Proof.
  unfold removeContent, ids_to_remove.
  destruct (bool_decide (is_Some i) || negb (selectedAll s)).
  - unfold detach, pagination.
    destruct (List.filter (fun x => includes _ (id x)) (content s)) eqn:Hrm;
      destruct (_ && _); simpl; rewrite ?Hrm; simpl; auto 10.
  - simpl. rewrite length_map. auto 10.
Qed.

Lemma includes_one (j x : Z) : includes [j] x = (j =? x).
Proof. unfold includes. simpl. apply orb_false_r. Qed.

(** X14. Removing by an id other than 0. No item with that id is left, the other
    items stay in their order and unselected, the items taken out are in
    [removedElements], and the total count drops by one whether or not an item
    with the id was loaded. *)
Theorem remove_by_id toDir (j : Z) op s s2 o c :
  is_remove_or_move toDir (Some j) op ->
  j <> 0 ->
  awaiting (self (op s)) = Some c ->
  is_resolved (o c) = true ->
  let fin := now (resume (self (op s)) o s2) in
  Forall (fun x => id x <> j) (content fin)
  /\ map id (content fin) = List.filter (fun k => negb (j =? k)) (map id (content s2))
  /\ Forall (fun x => selected x = false) (content fin)
  /\ totalCount fin = totalCount s2 - 1
  /\ (getAlone j s2 = None -> removedElements fin = removedElements s2)
  /\ (is_Some (getAlone j s2) ->
      removedElements fin = Some (List.filter (fun x => j =? id x) (content s2)))
  /\ getAlone j fin = None.
Proof.
  intros Hop Hj Hc Ho fin. subst fin.
  rewrite (remove_move_resolved s s2 o Hop Hc Ho).
  pose proof (removeContent_fields (Some j) s2) as H. cbv zeta in H.
  set (after := fst (removeContent (Some j) s2)) in *.
  cbn [now content totalCount removedElements changeActionState].
  destruct H as (_ & _ & _ & H).
  replace (bool_decide (is_Some (Some j))) with true in H
    by (symmetry; apply bool_decide_eq_true; eexists; reflexivity).
  cbn [orb] in H. unfold ids_to_remove in H.
  destruct (Z.eqb_spec j 0) as [|_]; [contradiction|].
  destruct H as (Hcont & Htot & Hrem).
  assert (Hf1 : List.filter (fun x => negb (includes [j] (id x))) (content s2)
                = List.filter (fun x => negb (j =? id x)) (content s2)).
  { apply filter_ext. intros x. rewrite includes_one. reflexivity. }
  assert (Hf2 : List.filter (fun x => includes [j] (id x)) (content s2)
                = List.filter (fun x => j =? id x) (content s2)).
  { apply filter_ext. intros x. apply includes_one. }
  rewrite Hf1 in Hcont. rewrite Hf2 in Hrem.
  assert (Hids : map id (content after)
                 = List.filter (fun k => negb (j =? k)) (map id (content s2))).
  { rewrite Hcont, map_map. simpl. clear.
    induction (content s2) as [|x l IH]; [reflexivity|].
    simpl. destruct (j =? id x); simpl; rewrite IH; reflexivity. }
  assert (Hnone : Forall (fun x => id x <> j) (content after)).
  { rewrite Hcont. apply List.Forall_forall. intros x Hx.
    apply in_map_iff in Hx. destruct Hx as (y & <- & Hy).
    apply filter_In in Hy. destruct Hy as [_ Hy]. simpl.
    destruct (Z.eqb_spec j (id y)); [discriminate Hy | congruence]. }
  split; [exact Hnone|]. split; [exact Hids|].
  split; [rewrite Hcont; apply toggled_off|].
  split; [rewrite Htot; simpl; lia|].
  assert (Hfind : forall l, List.find (fun item => id item =? j) l = None
                    <-> List.filter (fun x => j =? id x) l = []).
  { induction l as [|x l IH]; simpl; [tauto|].
    rewrite (Z.eqb_sym (id x) j). destruct (j =? id x); [split; discriminate | exact IH]. }
  split.
  { unfold getAlone. intros Hn. apply Hfind in Hn. rewrite Hn in Hrem. exact Hrem. }
  split.
  { unfold getAlone. intros [x Hx]. rewrite Hrem.
    destruct (List.filter (fun x => j =? id x) (content s2)) eqn:E; [|reflexivity].
    apply Hfind in E. congruence. }
  unfold getAlone. change (content (changeActionState settled_ok after)) with (content after).
  apply Hfind.
  clear -Hnone. induction Hnone as [|x l Hx _ IH]; [reflexivity|].
  simpl. destruct (Z.eqb_spec j (id x)); [congruence | exact IH].
Qed.

(** X15. Removing what "select all" selected (no id passed). The list keeps the
    loaded exceptions, unselected; the total count becomes the length of the
    list; the cursor, the pagination state and [removedElements] stay and no
    page is asked for. With distinct ids the items kept are exactly the ones
    whose selected flag was off. *)
Theorem remove_under_select_all toDir op s s2 o c :
  is_remove_or_move toDir None op ->
  awaiting (self (op s)) = Some c ->
  is_resolved (o c) = true ->
  selectedAll s2 = true ->
  let fin := resume (self (op s)) o s2 in
  totalCount (now fin) = Z.of_nat (length (content (now fin)))
  /\ forked fin = []
  /\ nextId (now fin) = nextId s2
  /\ paginationState (now fin) = paginationState s2
  /\ removedElements (now fin) = removedElements s2
  /\ (forall x, In x (content (now fin)) ->
        selected x = false
        /\ exists y, In y (content s2) /\ selected y = false /\ id y = id x)
  /\ (List.NoDup (map id (content s2)) ->
      content (now fin)
      = map (with_selected false)
          (List.filter (fun x => negb (selected x)) (content s2))).
Proof.
  intros Hop Hc Ho Hall fin. subst fin.
  rewrite (remove_move_resolved s s2 o Hop Hc Ho).
  pose proof (removeContent_fields None s2) as H. cbv zeta in H.
  set (after := fst (removeContent None s2)) in *.
  cbn [now forked content totalCount nextId paginationState removedElements
       changeActionState].
  destruct H as (Hn & _ & _ & H).
  rewrite Hall in H.
  replace (bool_decide (is_Some (@None Z))) with false in H
    by (symmetry; apply bool_decide_eq_false; intros [x Hx]; discriminate Hx).
  cbn [orb negb] in H.
  destruct H as (Hcont & Htot & Hrem & Hsp & Hpag).
  split; [exact Htot|]. split; [exact Hsp|]. split; [exact Hn|].
  split; [exact Hpag|]. split; [exact Hrem|].
  assert (Hinc : forall x, includes (getAllUnselectedIds s2) (id x) = true ->
                   exists y, In y (content s2) /\ selected y = false /\ id y = id x).
  { intros x Hx. unfold includes in Hx. apply existsb_exists in Hx.
    destruct Hx as (k & Hk & Hkx). apply Z.eqb_eq in Hkx. subst k.
    unfold getAllUnselectedIds in Hk. apply in_map_iff in Hk.
    destruct Hk as (y & Hy & Hin). apply filter_In in Hin. destruct Hin as [Hin Hsel].
    exists y. split; [exact Hin|]. split; [|exact Hy].
    destruct (selected y); [discriminate Hsel | reflexivity]. }
  split.
  { intros x Hx. rewrite Hcont in Hx. apply in_map_iff in Hx.
    destruct Hx as (y & <- & Hy). apply filter_In in Hy. destruct Hy as [_ Hy].
    split; [reflexivity|]. exact (Hinc y Hy). }
  intros Hnd. rewrite Hcont. f_equal.
  assert (Hsame : forall x y, In x (content s2) -> In y (content s2) -> id y = id x -> y = x).
  { clear -Hnd. induction (content s2) as [|z l IH]; [intros x y []|].
    simpl in Hnd. apply List.NoDup_cons_iff in Hnd. destruct Hnd as [Hz Hl].
    intros x y [<- | Hx] [<- | Hy] E; [reflexivity | | | exact (IH Hl x y Hx Hy E)].
    - exfalso. apply Hz. rewrite <- E. apply in_map. exact Hy.
    - exfalso. apply Hz. rewrite E. apply in_map. exact Hx. }
  assert (Hext : forall x, In x (content s2) ->
                   includes (getAllUnselectedIds s2) (id x) = negb (selected x)).
  { intros x Hx. destruct (includes _ (id x)) eqn:E.
    - destruct (Hinc x E) as (y & Hy & Hsel & Hid).
      rewrite <- (Hsame x y Hx Hy Hid), Hsel. reflexivity.
    - destruct (selected x) eqn:Hsel; [reflexivity|]. exfalso.
      assert (Hin : includes (getAllUnselectedIds s2) (id x) = true); [|congruence].
      unfold includes. apply existsb_exists. exists (id x).
      split; [|apply Z.eqb_refl].
      unfold getAllUnselectedIds. apply in_map. apply filter_In.
      split; [exact Hx | rewrite Hsel; reflexivity]. }
  clear -Hext. induction (content s2) as [|x l IH]; [reflexivity|].
  simpl. rewrite (Hext x (or_introl eq_refl)).
  rewrite IH; [reflexivity|]. intros y Hy. apply Hext. right. exact Hy.
Qed.

(** X16. The id 0 is not removed by id. [remove(0)] and [move(dir, 0)] send
    their request for the id 0, but outside "select all" the list is then
    changed exactly as by a call without id: the selected items go, and with
    nothing selected the list and the total count stay as they are. *)
Theorem id_zero_removes_selection toDir s s2 o :
  selectedAll s2 = false ->
  is_resolved (o (requestContentRemove [0] (if selectedAll s then search else by_id))) = true ->
  let fin := now (resume (self (remove (Some 0) s)) o s2) in
  awaiting (self (remove (Some 0) s))
    = Some (requestContentRemove [0] (if selectedAll s then search else by_id))
  /\ awaiting (self (move toDir (Some 0) s))
     = Some (requestContentMove [0] (if selectedAll s then search else by_id) toDir)
  /\ removeContent (Some 0) s2 = removeContent None s2
  /\ totalCount fin = totalCount s2 - Z.of_nat (count_flag true (content s2))
  /\ (Forall (fun x => selected x = false) (content s2) ->
      content fin = content s2 /\ totalCount fin = totalCount s2).
Proof.
  intros Hall Ho fin. subst fin.
  assert (Hr : awaiting (self (remove (Some 0) s))
               = Some (requestContentRemove [0] (if selectedAll s then search else by_id))).
  { rewrite awaiting_remove. unfold has_selection. simpl. rewrite orb_true_r. reflexivity. }
  split; [exact Hr|].
  split.
  { rewrite awaiting_move. unfold has_selection. simpl. rewrite orb_true_r. reflexivity. }
  assert (Heq : removeContent (Some 0) s2 = removeContent None s2).
  { unfold removeContent. rewrite Hall. reflexivity. }
  split; [exact Heq|].
  rewrite (@remove_move_resolved Err 0 (Some 0) (remove (Some 0)) s s2 o _
             (or_introl eq_refl) Hr Ho).
  rewrite Heq.
  pose proof (removeContent_fields None s2) as H. cbv zeta in H.
  set (after := fst (removeContent None s2)) in *.
  cbn [now content totalCount changeActionState].
  destruct H as (_ & _ & _ & H).
  rewrite Hall in H. cbn [negb orb] in H. rewrite orb_true_r in H.
  destruct H as (Hcont & Htot & _).
  unfold ids_to_remove, getAllSelectedIds in Hcont, Htot.
  rewrite length_map, filter_selected_length in Htot.
  split; [exact Htot|].
  intros Hnone.
  assert (Hc : count_flag true (content s2) = O /\ ids_flagged true (content s2) = []).
  { clear -Hnone. induction Hnone as [|x l Hx _ IH]; [auto|].
    simpl. rewrite Hx. simpl. exact IH. }
  destruct Hc as [Hc Hi].
  rewrite Htot, Hc, Hcont, filter_selected_ids, Hi.
  split; [|simpl; lia].
  change (fun x : Content => negb (includes [] (id x))) with (fun _ : Content => true).
  clear -Hnone. induction Hnone as [|x l Hx _ IH]; [reflexivity|].
  simpl. rewrite IH. f_equal. destruct x as [a b c]. simpl in Hx. subst c. reflexivity.
Qed.

(** X17. The page that [removeContent] asks for does not bring the selection
    back: however the request of the thread it left behind settles, the
    select-all flag is still off and every loaded item unselected, so the
    selected count is 0. *)
Theorem refill_keeps_selection_reset toDir i op s s2 o o' c t :
  is_remove_or_move toDir i op ->
  awaiting (self (op s)) = Some c ->
  is_resolved (o c) = true ->
  let fin := resume (self (op s)) o s2 in
  In t (forked fin) ->
  let late := now (resume t o' (now fin)) in
  awaiting t = Some requestContentData
  /\ selectedAll late = false
  /\ Forall (fun x => selected x = false) (content late)
  /\ selectedCount late = 0
  /\ getSelectedIds late = [].
Proof.
  intros Hop Hc Ho fin Ht late. subst fin late.
  rewrite (remove_move_resolved s s2 o Hop Hc Ho) in *.
  cbn [now forked] in *.
  destruct (removeContent_selection i s2) as [Hall Hnone].
  destruct (removeContent_spawned i s2) as [E | [s' E]]; rewrite E in Ht;
    [destruct Ht | destruct Ht as [<- | []]].
  split; [reflexivity|].
  set (base := changeActionState settled_ok (fst (removeContent i s2))) in *.
  assert (Hb : selectedAll base = false
               /\ Forall (fun x => selected x = false) (content base)) by (split; assumption).
  destruct Hb as [Hb1 Hb2].
  assert (Hlate : selectedAll (now (resume (self (paginationRequest s')) o' base)) = false
                  /\ Forall (fun x => selected x = false)
                       (content (now (resume (self (paginationRequest s')) o' base)))).
  { rewrite paginationRequest_resume.
    destruct (o' requestContentData) as [response|e]; [|auto].
    destruct (data response) as [d|]; [|auto]. simpl. split; [exact Hb1|].
    apply Forall_app. split; [exact Hb2|].
    unfold convert. apply List.Forall_forall. intros x Hx.
    apply in_map_iff in Hx. destruct Hx as (y & <- & _). exact Hb1. }
  destruct Hlate as [Hl1 Hl2].
  split; [exact Hl1|]. split; [exact Hl2|].
  assert (Hz : count_flag true (content (now (resume (self (paginationRequest s')) o' base))) = O
               /\ ids_flagged true
                    (content (now (resume (self (paginationRequest s')) o' base))) = []).
  { clear -Hl2. induction Hl2 as [|x l Hx _ IH]; [auto|].
    simpl. rewrite Hx. simpl. exact IH. }
  destruct Hz as [Hz1 Hz2].
  split.
  - rewrite selectedCount_counts, Hl1, Hz1. reflexivity.
  - unfold getSelectedIds, getAllSelectedIds. rewrite Hl1, filter_selected_ids. exact Hz2.
Qed.

End Removal.

Section Registry.

Import CompoFactory.

Context {ParamsType : Type} `{Countable ParamsType}.
Variables Params Element ChangeMethods : Type.

Abbreviation AnyFactory := (Factory (ParamsType:=ParamsType) Params Element ChangeMethods).

Implicit Types (f g : AnyFactory) (factories : list AnyFactory)
  (this : gmap ParamsType AnyFactory) (t : ParamsType).

Lemma registerFactories_lookup factories this t :
  registerFactories factories this !! t
  = match registered t factories with
    | Some f => Some f
    | None => this !! t
    end.
Proof.
  revert this. induction factories as [|g rest IH]; intros this; [reflexivity|].
  change (registerFactories (g :: rest) this)
    with (registerFactories rest (<[type g := g]> this)).
  rewrite IH. simpl. destruct (registered t rest); [reflexivity|].
  destruct (decide (type g = t)) as [<- | Hne].
  - apply lookup_insert_eq.
  - apply lookup_insert_ne. exact Hne.
Qed.

Lemma registered_Some t factories f :
  registered t factories = Some f -> In f factories /\ type f = t.
Proof.
  induction factories as [|g rest IH]; simpl; [discriminate|].
  destruct (registered t rest) as [f'|].
  - intros E. injection E as ->. destruct (IH eq_refl) as [Hin Ht]. auto.
  - destruct (decide (type g = t)); [|discriminate].
    intros E. injection E as ->. auto.
Qed.

Lemma registered_unique t factories f :
  List.NoDup (map (fun g => type g) factories) ->
  In f factories -> type f = t -> registered t factories = Some f.
Proof.
  induction factories as [|g rest IH]; simpl; [intros _ []|].
  intros Hnd Hin Ht. apply List.NoDup_cons_iff in Hnd. destruct Hnd as [Hg Hnd].
  destruct Hin as [-> | Hin].
  - destruct (registered t rest) as [f'|] eqn:E.
    + exfalso. apply registered_Some in E. destruct E as [Hin' Ht'].
      apply Hg. rewrite Ht, <- Ht'. apply (in_map (fun g => type g)). exact Hin'.
    + destruct (decide (type f = t)); [reflexivity | contradiction].
  - rewrite (IH Hnd Hin Ht). reflexivity.
Qed.

(** X19. When every registered factory has a tag of its own, the order of
    registration does not matter: a permutation of the list builds the same
    registry. *)
Theorem registration_order_irrelevant factories factories' :
  List.NoDup (map (fun g => type g) factories) ->
  Permutation factories factories' ->
  constructor factories = constructor factories'.
Proof.
  intros Hnd Hperm. apply map_eq. intros t.
  unfold constructor. rewrite !registerFactories_lookup.
  assert (Hnd' : List.NoDup (map (fun g => type g) factories')).
  { eapply Permutation_NoDup; [|exact Hnd]. apply Permutation_map. exact Hperm. }
  destruct (registered t factories) as [f|] eqn:E.
  - apply registered_Some in E. destruct E as [Hin Ht].
    rewrite (@registered_unique t factories' f Hnd' (Permutation_in _ Hperm Hin) Ht). reflexivity.
  - destruct (registered t factories') as [f'|] eqn:E'; [|reflexivity].
    apply registered_Some in E'. destruct E' as [Hin Ht].
    apply Permutation_sym in Hperm.
    rewrite (@registered_unique t factories f' Hnd (Permutation_in _ Hperm Hin) Ht) in E. discriminate E.
Qed.

End Registry.

Section ScrollPosition.

Import JenericComponent.

Variables Err Callback : Type.

(** X20. The handler is monotone in the scroll position and gated by the loading
    flag: once it calls the callback at some [scrollTop] it calls it at every
    larger one, and while the pagination state is loading it calls nothing
    wherever the container is scrolled. *)
Theorem scrollHandler_monotone (p : Captured Err Callback) (outer : HTMLElement)
    (callback : Callback) (top : Z) :
  element_of (scrollContainer p) = Some outer ->
  (scrollHandler p = [callback] -> scrollTop outer <= top ->
   scrollHandler (scrolled_to top p) = [callback])
  /\ ((exists l, loadingState p = Some l /\ FileSystemLogic.loading l = true) ->
      scrollHandler (scrolled_to top p) = [])
  /\ (loadingState p = None ->
      scrollHandler p
      = scrollHandler
          (@Build_Captured Err Callback (Some {| loading := false; error := None |})
             (onPagination p) (contentRef p) (scrollContainer p))).
Proof.
  intros Houter. unfold scrollHandler, scrolled_to. simpl.
  destruct (scrollContainer p) as [[[el|]]|]; simpl in *; try discriminate Houter.
  injection Houter as ->.
  split; [|split].
  - destruct (loadingState p) as [[[] e]|]; simpl;
      destruct (onPagination p); destruct (element_of (contentRef p)) as [inner|];
      try discriminate.
    + destruct (Z.leb_spec (scrollHeight inner - (scrollTop outer + clientHeight outer)) 35);
        [|discriminate].
      intros E Hle. destruct (Z.leb_spec (scrollHeight inner - (top + clientHeight outer)) 35);
        [exact E | lia].
    + destruct (Z.leb_spec (scrollHeight inner - (scrollTop outer + clientHeight outer)) 35);
        [|discriminate].
      intros E Hle. destruct (Z.leb_spec (scrollHeight inner - (top + clientHeight outer)) 35);
        [exact E | lia].
  - intros (l & -> & ->). reflexivity.
  - intros ->. reflexivity.
Qed.

End ScrollPosition.

Section CardProperties.

Import FieldItem.

Context {FieldType DateScale : Type} `{EqDecision FieldType} `{EqDecision DateScale}.
Variables FieldType_time FieldType_week FieldType_month FieldType_datetimeLocal
  FieldType_date : FieldType.
Variables DateScale_year DateScale_month DateScale_week DateScale_day DateScale_hour
  DateScale_minute : DateScale.
Variable type_name : FieldType -> string.
Variables Value Date : Type.
Variable newDate : Value -> Date.
Variable valueToString : Value -> string.
Variables startOfISO endOfISO : Date -> DateScale -> string.
Variables startOfHour endOfHour : string -> string.
Variable toFormat : string -> string -> string.
Variables DateTimeNextScaleMap DateNextScaleMap MonthNextScaleMap WeekNextScaleMap
  TimeNextScaleMap : DateScale -> option DateScale.
Variables UNIQUE_DATA_MAP NOUNIQUE_DATA_MAP : gmap string string.
Variable isDateTypeField : Field (FieldType:=FieldType) (DateScale:=DateScale) -> bool.

Local Abbreviation prevScale :=
  (prevScale FieldType_time FieldType_week FieldType_month
     DateScale_month DateScale_day DateScale_hour DateScale_minute toFormat).
Local Abbreviation isDisabledPrevControl :=
  (isDisabledPrevControl FieldType_time DateScale_year DateScale_hour).
Local Abbreviation onChangePrevDataScale :=
  (onChangePrevDataScale DateScale_month DateScale_day DateScale_hour DateScale_minute
     newDate startOfISO endOfISO).
Local Abbreviation onChangeDateScaleDate :=
  (onChangeDateScaleDate FieldType_time FieldType_week FieldType_month
     FieldType_datetimeLocal FieldType_date
     DateScale_year DateScale_month DateScale_week DateScale_day DateScale_hour
     DateScale_minute newDate valueToString startOfISO endOfISO startOfHour endOfHour
     DateTimeNextScaleMap DateNextScaleMap MonthNextScaleMap WeekNextScaleMap
     TimeNextScaleMap isDateTypeField).
Local Abbreviation uniqueDataField := (uniqueDataField type_name).
Local Abbreviation onFormattedDataField :=
  (onFormattedDataField type_name UNIQUE_DATA_MAP NOUNIQUE_DATA_MAP).

Local Abbreviation drill_down :=
  (drill_down FieldType_time FieldType_week FieldType_month FieldType_datetimeLocal
     FieldType_date DateScale_year DateScale_month DateScale_week DateScale_day
     DateScale_hour DateScale_minute DateTimeNextScaleMap DateNextScaleMap
     MonthNextScaleMap WeekNextScaleMap TimeNextScaleMap).

Implicit Types (field : Field (FieldType:=FieldType) (DateScale:=DateScale)).

(** X21. The label of the previous scale and the handler of the control agree:
    whenever [prevScale] yields a label, stepping back invokes exactly one
    callback for the field's title, and, the scale [year] being none of the
    four finer ones, the control is not disabled. *)
Theorem prevScale_label_has_a_step field (value : Value) (label : string) :
  prevScale field = Some label ->
  DateScale_year <> DateScale_month -> DateScale_year <> DateScale_day ->
  DateScale_year <> DateScale_hour -> DateScale_year <> DateScale_minute ->
  isDisabledPrevControl field = false
  /\ (onChangePrevDataScale field value = [onResetDataScale (title field)]
      \/ exists period scale,
           onChangePrevDataScale field value
           = [onChangeDataScale period scale (title field)]).
Proof using Type.
  unfold FieldItem.prevScale, FieldItem.isDisabledPrevControl,
    FieldItem.onChangePrevDataScale, setStartScale.
  destruct (scaling field) as [[scale period]|]; [|discriminate].
  destruct (bool_decide (type field <> FieldType_time)) eqn:Et; [|discriminate].
  apply bool_decide_eq_true in Et.
  rewrite (bool_decide_eq_false_2 _ Et).
  destruct (_ && _); [|discriminate].
  intros Hl H1 H2 H3 H4.
  repeat case_bool_decide; subst; try discriminate Hl; try congruence;
    (split; [reflexivity | eauto]).
Qed.

(** X22. Stepping back invokes at most one callback and always names the field's
    title; from [month] it resets, from [day], [hour] and [minute] it asks for
    [month], [day] and [hour]; without a scale it does nothing. *)
Theorem onChangePrevDataScale_steps field (value : Value) :
  (length (onChangePrevDataScale field value) <= 1)%nat
  /\ (forall c, In c (onChangePrevDataScale field value) ->
        c = onResetDataScale (title field)
        \/ exists period scale,
             c = onChangeDataScale period scale (title field)
             /\ In scale [DateScale_month; DateScale_day; DateScale_hour])
  /\ (scaling field = None -> onChangePrevDataScale field value = []).
Proof using Type.
  unfold FieldItem.onChangePrevDataScale, setStartScale.
  destruct (scaling field) as [[scale period]|]; [|simpl; split; [lia | split; [intros c [] | reflexivity]]].
  repeat case_bool_decide; simpl; (split; [lia|]); (split; [|discriminate]);
    intros c Hc; first [destruct Hc as [<- | []]; simpl; eauto 10 | destruct Hc].
Qed.

(** X23. Drilling down is driven by the type of the field. For each of the five
    date-like types (distinct members of the enum) the handler is silent at
    the finest scale of the type and otherwise invokes [onChangeDataScale]
    once, for the field's title, with the next scale of the type's table or
    the same scale when the table has none; it never resets, and a field that
    [isDateTypeField] rejects or of another type invokes nothing. *)
Theorem onChangeDateScaleDate_by_type field (value : Value) :
  List.NoDup (map fst drill_down) ->
  (isDateTypeField field = false -> onChangeDateScaleDate field value = [])
  /\ (~ In (type field) (map fst drill_down) -> onChangeDateScaleDate field value = [])
  /\ (forall start finest table,
        isDateTypeField field = true ->
        In (type field, (start, finest, table)) drill_down ->
        let scale := scale_or field start in
        (scale = finest -> onChangeDateScaleDate field value = [])
        /\ (scale <> finest ->
            exists period,
              onChangeDateScaleDate field value
              = [onChangeDataScale period (next_or_same table scale) (title field)])).
Proof using Type.
  clear type_name toFormat.
  intros Hnd. unfold FieldItem.onChangeDateScaleDate.
  split; [intros ->; reflexivity|].
  split.
  { intros Hn. destruct (isDateTypeField field); [|reflexivity].
    simpl in Hn. repeat case_bool_decide; try reflexivity; exfalso; apply Hn; auto 10. }
  intros start finest table Hd Hin. rewrite Hd. cbv zeta.
  simpl in Hnd.
  repeat (apply List.NoDup_cons_iff in Hnd;
          let Hfresh := fresh "Hfresh" in destruct Hnd as [Hfresh Hnd]; simpl in Hfresh).
  clear Hnd Hd.
  destruct Hin as [E | [E | [E | [E | [E | []]]]]];
    injection E as Et Es Ef Etab; rewrite <- Es, <- Ef, <- Etab; clear Es Ef Etab;
    repeat case_bool_decide;
    try (exfalso; intuition congruence);
    (split; intros; first [reflexivity | congruence | eexists; reflexivity]).
Qed.

Lemma entry_or_cases (table : gmap string string) (key cell : string) :
  entry_or table key cell = cell
  \/ (table !! key = Some (entry_or table key cell) /\ entry_or table key cell <> ""%string).
Proof using Type.
  unfold entry_or. destruct (table !! key) as [x|]; [|left; reflexivity].
  destruct (String.eqb_spec x ""); [left; reflexivity | right; auto].
Qed.

(** X24. A header cell is never blanked: [onFormattedDataField] returns the cell
    itself or a non-empty entry of one of the two tables, so a non-empty cell
    gives a non-empty header; a cell without entry is returned as it is; and
    the table by field type is read only for the cell ["name"] of a field
    whose type is email, file or tel. *)
Theorem onFormattedDataField_never_blank field (cell : string) :
  (cell <> ""%string -> onFormattedDataField field cell <> ""%string)
  /\ (onFormattedDataField field cell = cell
      \/ UNIQUE_DATA_MAP !! type_name (type field) = Some (onFormattedDataField field cell)
      \/ NOUNIQUE_DATA_MAP !! cell = Some (onFormattedDataField field cell))
  /\ (uniqueDataField field = false \/ cell <> "name"%string ->
      onFormattedDataField field cell = entry_or NOUNIQUE_DATA_MAP cell cell)
  /\ (uniqueDataField field = true ->
      onFormattedDataField field "name"
      = entry_or UNIQUE_DATA_MAP (type_name (type field)) "name").
Proof using Type.
  unfold FieldItem.onFormattedDataField.
  destruct (uniqueDataField field) eqn:Eu; destruct (String.eqb_spec cell "name") as [Ec|Ec];
    simpl.
  - pose proof (entry_or_cases UNIQUE_DATA_MAP (type_name (type field)) cell) as Hc.
    split; [intros Hne; destruct Hc as [-> | [_ Hc]]; assumption|].
    split; [destruct Hc as [Hc | [Hc _]]; auto|].
    split; [intros [Hf | Hn]; [discriminate Hf | contradiction]|].
    intros _. reflexivity.
  - pose proof (entry_or_cases NOUNIQUE_DATA_MAP cell cell) as Hc.
    split; [intros Hne; destruct Hc as [-> | [_ Hc]]; assumption|].
    split; [destruct Hc as [Hc | [Hc _]]; auto|].
    split; [reflexivity|]. intros _. reflexivity.
  - pose proof (entry_or_cases NOUNIQUE_DATA_MAP cell cell) as Hc.
    split; [intros Hne; destruct Hc as [-> | [_ Hc]]; assumption|].
    split; [destruct Hc as [Hc | [Hc _]]; auto|].
    split; [reflexivity|]. discriminate.
  - pose proof (entry_or_cases NOUNIQUE_DATA_MAP cell cell) as Hc.
    split; [intros Hne; destruct Hc as [-> | [_ Hc]]; assumption|].
    split; [destruct Hc as [Hc | [Hc _]]; auto|].
    split; [reflexivity|]. discriminate.
Qed.

End CardProperties.

Section ResponseProperties.

Import FieldItem.

Variables Item Other : Type.
Implicit Types (response : Response Item Other).

(** X25. The paging numbers of a result come from the envelope of the response,
    never from its [data]: [total_count] and [next_id] are the numbers beside
    [data], or 0 when they are missing; the key [type] is dropped, [items] is
    always there, and every other key of [data] is passed on. Without [data]
    the result is the empty page. The three callbacks for grouped values,
    dates and all values build the same result. *)
Theorem request_result_shape response :
  let r := onGroupableRequest response in
  onDateRequest response = r
  /\ onDataRequest response = r
  /\ r !! "type"%string = None
  /\ is_Some (r !! "items"%string)
  /\ match data response with
     | Some d =>
         r !! "total_count"%string = Some (JsNumber (default 0 (total_count response)))
         /\ r !! "next_id"%string = Some (JsNumber (default 0 (next_id response)))
         /\ forall k v, k <> "type"%string -> k <> "total_count"%string ->
              k <> "next_id"%string -> d !! k = Some v -> r !! k = Some v
     | None =>
         r = {[ "items"%string := JsArray []; "total_count"%string := JsNumber 0;
                "next_id"%string := JsNumber 0 ]}
     end.
Proof.
  intros r. subst r.
  split; [reflexivity|]. split; [reflexivity|].
  unfold onGroupableRequest, or_zero.
  destruct (data response) as [d|].
  - split; [simplify_map_eq; rewrite lookup_union_r by apply lookup_delete_eq;
            reflexivity|].
    split.
    { rewrite !lookup_insert_ne by discriminate.
      destruct (delete "type"%string d !! "items"%string) as [x|] eqn:E.
      - exists x. apply lookup_union_Some_l. exact E.
      - eexists. rewrite lookup_union_r by exact E. reflexivity. }
    split; [rewrite lookup_insert_ne by discriminate; apply lookup_insert_eq|].
    split; [apply lookup_insert_eq|].
    intros k v H1 H2 H3 Hk.
    rewrite !lookup_insert_ne by congruence.
    apply lookup_union_Some_l. rewrite lookup_delete_ne by congruence. exact Hk.
  - split; [reflexivity|]. split; [eexists; reflexivity | reflexivity].
Qed.

(** X26. The result for numbers always carries [items], [median], [average] and
    [next_id]; [next_id] is the number beside [data] or 0, and [type] is
    dropped. *)
Theorem number_result_shape response :
  let r := onNumberRequest response in
  r !! "type"%string = None
  /\ is_Some (r !! "items"%string) /\ is_Some (r !! "median"%string)
  /\ is_Some (r !! "average"%string)
  /\ r !! "next_id"%string
     = Some (JsNumber (match data response with
                       | Some _ => default 0 (next_id response)
                       | None => 0
                       end)).
Proof.
  intros r. subst r. unfold onNumberRequest, or_zero.
  assert (Hsome : forall (m base : gmap string (JsValue Item Other)) k,
             is_Some (base !! k) -> is_Some ((m ∪ base) !! k)).
  { intros m base k [x Hx]. destruct (m !! k) as [y|] eqn:E.
    - exists y. apply lookup_union_Some_l. exact E.
    - exists x. rewrite lookup_union_r by exact E. exact Hx. }
  destruct (data response) as [d|].
  - split; [rewrite lookup_insert_ne by discriminate;
            rewrite lookup_union_r by apply lookup_delete_eq; reflexivity|].
    split; [rewrite lookup_insert_ne by discriminate; apply Hsome; eexists; reflexivity|].
    split; [rewrite lookup_insert_ne by discriminate; apply Hsome; eexists; reflexivity|].
    split; [rewrite lookup_insert_ne by discriminate; apply Hsome; eexists; reflexivity|].
    apply lookup_insert_eq.
  - split; [reflexivity|]. repeat split; eexists; reflexivity.
Qed.

End ResponseProperties.

(** ** The further properties at examples *)

(** The examples run on ASCII names. *)
#[local] Existing Instance ascii_strings.

(** X9 at an example: the three items of the example, ascending by name. *)
Lemma sortContent_sorts_example :
  Permutation
    (sortContent MoreExamples.ascending (content MoreExamples.ascending) f_name "name")
    (content MoreExamples.ascending).
Proof.
  exact (proj1 (@sortContent_sorts string ascii_strings MoreExamples.ascending
                  (content MoreExamples.ascending) f_name "name" ascii_strict_order)).
Defined.

(** X2 at an example: the page of the example is appended to the three loaded
    items. *)
Lemma page_is_appended_example :
  map id (content (now (resume (self (paginationRequest Examples.three_of_twelve))
                          (Examples.serving Examples.page) Examples.three_of_twelve)))
  = [5; 6; 7; 8].
Proof.
  pose proof (@page_is_appended string Examples.three_of_twelve Examples.three_of_twelve
                (Examples.serving Examples.page) Examples.page eq_refl) as H.
  cbv zeta in H. destruct H as ((_ & H & _) & _). exact H.
Defined.

(** X3 at an example: a content request under "select all" with one exception
    loads its items selected. *)
Lemma content_request_resets_items_example :
  selectedCount (now (resume (self (contentRequest Examples.all_but_one))
                        (Examples.serving Examples.page) Examples.all_but_one))
  = 12.
Proof.
  pose proof (@content_request_resets_items string Examples.all_but_one Examples.all_but_one
                (Examples.serving Examples.page) Examples.page
                [{| cs_id := 8; cs_name := "d" |}] eq_refl eq_refl) as H.
  cbv zeta in H. destruct H as (_ & _ & _ & _ & _ & H & _). exact H.
Defined.

(** X7 at an example: three items, all loaded and all selected. *)
Lemma isSelectAll_meaning_example :
  selectedCount MoreExamples.all_loaded = 3
  /\ getSelectedIds MoreExamples.all_loaded = [5; 6; 7].
Proof.
  pose proof (@isSelectAll_meaning string MoreExamples.all_loaded eq_refl) as H.
  destruct H as (_ & _ & H1 & _ & H2). split; [exact H1 | exact H2].
Defined.

(** X10 at an example: renamed to ["z"] under an ascending sort, item 5 sorts
    last and is cut off. *)
Lemma rename_keeps_items_example :
  totalCount (now (resume (self (rename 5 "z" MoreExamples.ascending))
                     (Examples.serving Examples.page) MoreExamples.ascending))
  = 12.
Proof.
  pose proof (@rename_keeps_items string ascii_strings 5 "z" MoreExamples.ascending
                MoreExamples.ascending
                (Examples.serving Examples.page) eq_refl) as H.
  cbv zeta in H. destruct H as (H & _). exact H.
Defined.

(** X11 at an example: a rename that fails with ["offline"]. *)
Lemma failure_keeps_store_example :
  resume (self (rename 5 "z" Examples.three_of_twelve)) (Examples.failing "offline")
    Examples.three_of_twelve
  = finished (changeActionState (settled_error "offline"%string) Examples.three_of_twelve).
Proof.
  exact (proj1 (@failure_keeps_store string ascii_strings 5 "z" Examples.three_of_twelve
                  Examples.three_of_twelve (Examples.failing "offline") "offline"%string
                  (fun c => eq_refl))).
Defined.

(** X12 at an example: a content request that succeeds. *)
Lemma loading_flag_lifecycle_example :
  state (now (contentRequest Examples.three_of_twelve))
  = {| loading := true; error := None |}.
Proof.
  pose proof (@loading_flag_lifecycle string ascii_strings 5 "z" Examples.three_of_twelve
                Examples.three_of_twelve (Examples.serving Examples.page)) as H.
  assert (Ho : forall c, is_resolved (Examples.serving Examples.page c) = true)
    by (intros []; reflexivity).
  destruct (H Ho) as (_ & _ & H3 & _). exact H3.
Defined.

(** X13 at an example: a change of sort that fails. *)
Lemma failed_sort_change_example :
  nextId (now (settle (Examples.failing "offline")
                 (onChangeSort {[ "name"%string := 1 ]} Examples.three_of_twelve)))
  = 0.
Proof.
  pose proof (@failed_sort_change string {[ "name"%string := 1 ]} Examples.three_of_twelve
                (Examples.failing "offline") "offline"%string eq_refl) as H.
  cbv zeta in H. destruct H as (_ & _ & _ & _ & H & _). exact H.
Defined.

(** X14 at an example: removing item 6. *)
Lemma remove_by_id_example :
  map id (content (now (resume (self (remove (Some 6) Examples.three_of_twelve))
                          (Examples.serving Examples.page) Examples.three_of_twelve)))
  = [5; 7].
Proof.
  assert (Hj : 6 <> 0) by discriminate.
  pose proof (@remove_by_id string 0 6 (remove (Some 6)) Examples.three_of_twelve
                Examples.three_of_twelve (Examples.serving Examples.page)
                (requestContentRemove [6] by_id) (or_introl eq_refl) Hj eq_refl eq_refl) as H.
  cbv zeta in H. destruct H as (_ & H & _). exact H.
Defined.

(** X15 at an example: removing everything but the exception 6. *)
Lemma remove_under_select_all_example :
  totalCount (now (resume (self (remove None Examples.all_but_one))
                     (Examples.serving Examples.page) Examples.all_but_one))
  = 1.
Proof.
  pose proof (@remove_under_select_all string 0 (remove None) Examples.all_but_one
                Examples.all_but_one (Examples.serving Examples.page)
                (requestContentRemove [6] search) (or_introl eq_refl) eq_refl eq_refl
                eq_refl) as H.
  cbv zeta in H. destruct H as (H & _). exact H.
Defined.

(** X16 at an example: [remove(0)] removes the selected item 6. *)
Lemma id_zero_removes_selection_example :
  totalCount (now (resume (self (remove (Some 0) Examples.three_of_twelve))
                     (Examples.serving Examples.page) Examples.three_of_twelve))
  = 11.
Proof.
  pose proof (@id_zero_removes_selection string 0 Examples.three_of_twelve
                Examples.three_of_twelve (Examples.serving Examples.page) eq_refl eq_refl)
    as H.
  cbv zeta in H. destruct H as (_ & _ & _ & H & _). exact H.
Defined.

(** X17 at an example: the page asked for after removing item 5 arrives. *)
Lemma refill_keeps_selection_reset_example :
  selectedCount
    (now (resume (self (paginationRequest Examples.three_of_twelve))
            (Examples.serving Examples.page)
            (now (resume (self (remove (Some 5) Examples.three_of_twelve))
                    (Examples.serving Examples.page) Examples.three_of_twelve))))
  = 0.
Proof.
  pose proof (@refill_keeps_selection_reset string 0 (Some 5) (remove (Some 5))
                Examples.three_of_twelve Examples.three_of_twelve
                (Examples.serving Examples.page) (Examples.serving Examples.page)
                (requestContentRemove [5] by_id)
                (self (paginationRequest Examples.three_of_twelve))
                (or_introl eq_refl) eq_refl eq_refl) as H.
  cbv zeta in H. destruct (H (or_introl eq_refl)) as (_ & _ & _ & H4 & _). exact H4.
Defined.

(** X19 at an example: two factories of different tags in either order. *)
Lemma registration_order_irrelevant_example :
  CompoFactory.constructor [DispatchExamples.text; DispatchExamples.color]
  = CompoFactory.constructor [DispatchExamples.color; DispatchExamples.text].
Proof.
  apply (@registration_order_irrelevant string _ _ Z string unit
           [DispatchExamples.text; DispatchExamples.color]
           [DispatchExamples.color; DispatchExamples.text]).
  - repeat (apply List.NoDup_cons; [simpl; intuition discriminate|]). apply List.NoDup_nil.
  - apply perm_swap.
Defined.

(** X20 at an example: what fires at 480 fires at 500. *)
Lemma scrollHandler_monotone_example :
  JenericComponent.scrollHandler (scrolled_to 500 ScrollExamples.near_bottom) = [tt].
Proof.
  pose proof (@scrollHandler_monotone string unit ScrollExamples.near_bottom
                {| JenericComponent.scrollTop := 480; JenericComponent.clientHeight := 400;
                   JenericComponent.scrollHeight := 400 |} tt 500 eq_refl) as H.
  destruct H as (H & _). apply H; [reflexivity | simpl; lia].
Defined.

(** X21 at an example: a date field at the scale of days shows the label of
    its month and steps back to the months. *)
Lemma prevScale_label_has_a_step_example :
  FieldItem.isDisabledPrevControl "time"%string "year"%string "hour"%string
    CardExamples.by_day = false.
Proof.
  assert (Hne : forall x y : string, String.eqb x y = false -> x <> y)
    by (intros x y E; apply String.eqb_neq; exact E).
  pose proof (@prevScale_label_has_a_step string string _ _
                "time"%string "week"%string "month"%string
                "year"%string "month"%string "day"%string "hour"%string "minute"%string
                string string (fun x => x) CardExamples.startOfISO CardExamples.endOfISO
                CardExamples.toFormat CardExamples.by_day "2024-03-15"%string
                (CardExamples.toFormat "2024-03-01T00:00:00.000" "yyyy-MM") eq_refl
                (Hne "year" "month" eq_refl) (Hne "year" "day" eq_refl)
                (Hne "year" "hour" eq_refl) (Hne "year" "minute" eq_refl))%string as H.
  exact (proj1 H).
Defined.

(** X23 at an example: a date field at the scale of days is at its finest
    scale, so a click on the chart changes nothing. *)
Lemma onChangeDateScaleDate_by_type_example :
  FieldItem.onChangeDateScaleDate "time"%string "week"%string "month"%string
    "datetime-local"%string "date"%string
    "year"%string "month"%string "week"%string "day"%string "hour"%string "minute"%string
    (fun x : string => x) (fun x : string => x)
    CardExamples.startOfISO CardExamples.endOfISO (fun x => x) (fun x => x)
    (fun _ => None) (fun _ => None) (fun _ => None) (fun _ => None) (fun _ => None)
    (fun _ => true) CardExamples.by_day "2024-03-15"%string
  = [].
Proof.
  pose proof (@onChangeDateScaleDate_by_type string string _ _
                "time"%string "week"%string "month"%string
                "datetime-local"%string "date"%string
                "year"%string "month"%string "week"%string "day"%string "hour"%string
                "minute"%string string string
                (fun x : string => x) (fun x : string => x)
                CardExamples.startOfISO CardExamples.endOfISO (fun x => x) (fun x => x)
                (fun _ => None) (fun _ => None) (fun _ => None) (fun _ => None)
                (fun _ => None) (fun _ => true) CardExamples.by_day "2024-03-15"%string) as H.
  assert (Hnd : List.NoDup ["datetime-local"; "date"; "month"; "week"; "time"]%string).
  { repeat (apply List.NoDup_cons; [simpl; intuition discriminate|]). apply List.NoDup_nil. }
  destruct (H Hnd) as (_ & _ & H3).
  destruct (H3 "year"%string "day"%string (fun _ => None) eq_refl
              (or_intror (or_introl eq_refl))) as [H4 _].
  exact (H4 eq_refl).
Defined.
